(** * Schedule / time-off backend (server.js): validators, handlers, store

    A shallow embedding of [server.js].  The validators are pure string
    functions; the request handlers are functions from a request and a
    store to a response and a new store.  The platform pieces the code
    calls ([String.prototype.trim], [RegExp.prototype.test], [Number],
    [Date]) are embedded as far as the code reaches them. *)

From Stdlib Require Import ZArith Lia Bool List Ascii String Sorted Permutation.
From stdpp Require Import gmap strings pretty.
Import ListNotations.

Local Open Scope string_scope.
Local Open Scope Z_scope.

(* ===================================================================== *)
(** ** JavaScript values, strings and the [Date] object *)
(* ===================================================================== *)

Module JS.

(** Primitive JSON values as they arrive in a parsed request body.  A
    missing property reads as [JUndefined].  A string is a sequence of
    code units; the embedding keeps the code units 0..255. *)
Inductive jsprim : Type :=
  | JUndefined
  | JNull
  | JBool (b : bool)
  | JNum (n : Z)
  | JStr (s : string).

(** A body property: a primitive, an object of primitives or an array of
    primitives. *)
Inductive jsval : Type :=
  | JPrim (p : jsprim)
  | JObj (fields : gmap string jsprim)
  | JArr (items : list jsprim).

(** [!!x] on a primitive: [undefined], [null], [false], [0] and the empty
    string are falsy. *)
Definition truthy (p : jsprim) : bool :=
  match p with
  | JUndefined | JNull => false
  | JBool b => b
  | JNum n => negb (n =? 0)
  | JStr s => negb (String.eqb s "")
  end.

(** Every object and every array is truthy. *)
Definition truthyVal (v : jsval) : bool :=
  match v with
  | JPrim p => truthy p
  | JObj _ | JArr _ => true
  end.

(** [v.name]: a property of an object; a primitive and an array have no
    own data property of the names used here, so the read gives
    [undefined]. *)
Definition getProp (v : jsval) (name : string) : jsprim :=
  match v with
  | JPrim _ | JArr _ => JUndefined
  | JObj o => default JUndefined (o !! name)
  end.

(** *** Characters *)

Definition code (c : ascii) : Z := Z.of_N (N_of_ascii c).

(** [\d] *)
Definition isDigit (c : ascii) : bool := (48 <=? code c) && (code c <=? 57).

Definition digitVal (c : ascii) : Z := code c - 48.

(** WhiteSpace and LineTerminator code units below 256: TAB, LF, VT, FF,
    CR, SP and NBSP. *)
Definition isSpace (c : ascii) : bool :=
  let n := code c in
  ((9 <=? n) && (n <=? 13)) || (n =? 32) || (n =? 160).

(** *** [String.prototype.trim] *)

Fixpoint trimStart (s : string) : string :=
  match s with
  | String c r => if isSpace c then trimStart r else s
  | EmptyString => EmptyString
  end.

Fixpoint trimEnd (s : string) : string :=
  match s with
  | EmptyString => EmptyString
  | String c r =>
      match trimEnd r with
      | EmptyString => if isSpace c then EmptyString else String c EmptyString
      | r' => String c r'
      end
  end.

Definition trim (s : string) : string := trimEnd (trimStart s).

(** *** [String.prototype.split] with a one-character separator *)

Fixpoint split (sep : ascii) (s : string) : list string :=
  match s with
  | EmptyString => [EmptyString]
  | String c r =>
      if Ascii.eqb c sep then EmptyString :: split sep r
      else match split sep r with
           | p :: ps => String c p :: ps
           | [] => [String c EmptyString]
           end
  end.

(** *** [Number(s)] on a string

    Surrounding white space is skipped, the empty string is 0 and a run
    of decimal digits is its value.  Every other string is mapped to
    [None] (NaN): signs, fractions, exponents and radix prefixes never
    reach [Number] in this program, which calls it on the pieces of a
    string that has matched [dateRegex]. *)
Fixpoint digitsValue (acc : Z) (s : string) : option Z :=
  match s with
  | EmptyString => Some acc
  | String c r => if isDigit c then digitsValue (10 * acc + digitVal c) r else None
  end.

Definition Number (s : string) : option Z := digitsValue 0 (trim s).

(** *** The [Date] object, in whole days

    Time values are counted in days since 1970-01-01; the clock time of
    every [Date] built here is midnight.  The local time zone is taken
    to have a constant offset, so that the local fields of
    [new Date(y, m, d)] are the fields of the day [MakeDay(y, m, d)]. *)

Definition DayFromYear (y : Z) : Z :=
  365 * (y - 1970) + (y - 1969) / 4 - (y - 1901) / 100 + (y - 1601) / 400.

Definition isLeap (y : Z) : bool :=
  ((y mod 4 =? 0) && negb (y mod 100 =? 0)) || (y mod 400 =? 0).

Definition DaysInYear (y : Z) : Z := if isLeap y then 366 else 365.

(** Day within the year on which month [m] (0-based) starts. *)
Definition monthStart (leap : bool) (m : Z) : Z :=
  let l := if leap then 1 else 0 in
  if m <=? 0 then 0
  else if m =? 1 then 31
  else if m =? 2 then 59 + l
  else if m =? 3 then 90 + l
  else if m =? 4 then 120 + l
  else if m =? 5 then 151 + l
  else if m =? 6 then 181 + l
  else if m =? 7 then 212 + l
  else if m =? 8 then 243 + l
  else if m =? 9 then 273 + l
  else if m =? 10 then 304 + l
  else if m =? 11 then 334 + l
  else 365 + l.

(** [MakeDay(year, month, date)]: month and date outside their ranges
    carry over into the year and the following months. *)
Definition MakeDay (year month date : Z) : Z :=
  let ym := year + month / 12 in
  let mn := month mod 12 in
  DayFromYear ym + monthStart (isLeap ym) mn + date - 1.

(** [YearFromTime]: the largest [y] with [DayFromYear y <= day], from an
    estimate that is off by at most one. *)
Definition YearFromDay (day : Z) : Z :=
  let y0 := 1970 + (400 * day) / 146097 in
  if day <? DayFromYear y0 then y0 - 1
  else if DayFromYear (y0 + 1) <=? day then y0 + 1
  else y0.

Definition DayWithinYear (day : Z) : Z := day - DayFromYear (YearFromDay day).

(** [MonthFromTime] (0-based). *)
Definition MonthFromDay (day : Z) : Z :=
  let leap := isLeap (YearFromDay day) in
  let d := DayWithinYear day in
  if d <? monthStart leap 1 then 0
  else if d <? monthStart leap 2 then 1
  else if d <? monthStart leap 3 then 2
  else if d <? monthStart leap 4 then 3
  else if d <? monthStart leap 5 then 4
  else if d <? monthStart leap 6 then 5
  else if d <? monthStart leap 7 then 6
  else if d <? monthStart leap 8 then 7
  else if d <? monthStart leap 9 then 8
  else if d <? monthStart leap 10 then 9
  else if d <? monthStart leap 11 then 10
  else 11.

(** [DateFromTime] (1-based). *)
Definition DateFromDay (day : Z) : Z :=
  DayWithinYear day - monthStart (isLeap (YearFromDay day)) (MonthFromDay day) + 1.

(** [new Date(year, month, date)]: a year 0..99 means 1900 + year. *)
Definition newDate (year month date : Z) : Z :=
  let yr := if (0 <=? year) && (year <=? 99) then 1900 + year else year in
  MakeDay yr month date.

Definition getFullYear (t : Z) : Z := YearFromDay t.
Definition getMonth (t : Z) : Z := MonthFromDay t.
Definition getDate (t : Z) : Z := DateFromDay t.

(** *** [String.prototype.replace] with a string pattern

    The first occurrence of the pattern is replaced; here the replacement
    is the empty string, so the occurrence is removed. *)

Fixpoint startsWith (pat s : string) : bool :=
  match pat, s with
  | EmptyString, _ => true
  | String p pat', String c s' => Ascii.eqb p c && startsWith pat' s'
  | String _ _, EmptyString => false
  end.

Fixpoint drop (n : nat) (s : string) : string :=
  match n, s with
  | O, _ => s
  | S k, String _ s' => drop k s'
  | S _, EmptyString => EmptyString
  end.

Fixpoint removeFirst (pat s : string) : string :=
  if startsWith pat s then drop (String.length pat) s
  else match s with
       | EmptyString => EmptyString
       | String c s' => String c (removeFirst pat s')
       end.

End JS.

(* ===================================================================== *)
(** ** Regular expressions without repetition operators *)
(* ===================================================================== *)

Module Regex.
Import JS.

(** The two patterns of the program use only character classes,
    sequencing, alternation and bounded repetition. *)
Inductive re : Type :=
  | Eps                            (* the empty pattern *)
  | Digit                          (* \d *)
  | Range (lo hi : Z)              (* [lo-hi], by code unit *)
  | Lit (c : Z)                    (* one literal character *)
  | Cat (a b : re)
  | Alt (a b : re).

(** [accept r s k]: some prefix of [s] matches [r] and the continuation
    [k] accepts what follows it (a backtracking matcher). *)
Fixpoint accept (r : re) (s : string) (k : string -> bool) : bool :=
  match r with
  | Eps => k s
  | Digit =>
      match s with String c t => isDigit c && k t | EmptyString => false end
  | Range lo hi =>
      match s with
      | String c t => (lo <=? code c) && (code c <=? hi) && k t
      | EmptyString => false
      end
  | Lit x =>
      match s with String c t => (code c =? x) && k t | EmptyString => false end
  | Cat a b => accept a s (fun t => accept b t k)
  | Alt a b => accept a s k || accept b s k
  end.

(** [/^r$/.test(s)]: a match that ends at the end of the string. *)
Definition test (r : re) (s : string) : bool :=
  accept r s (fun t => String.eqb t EmptyString).

(** [r{n}] *)
Fixpoint rep (n : nat) (r : re) : re :=
  match n with
  | O => Eps
  | S k => Cat r (rep k r)
  end.

End Regex.

(* ===================================================================== *)
(** ** Validation middleware (server.js, lines 105-137) *)
(* ===================================================================== *)

Module Validators.
Import JS Regex.

(** [/^([01]\d|2[0-3]):([0-5]\d)$/] *)
Definition timeRegex : re :=
  Cat (Alt (Cat (Range 48 49) Digit) (Cat (Lit 50) (Range 48 51)))
      (Cat (Lit 58) (Cat (Range 48 53) Digit)).

(** [/^\d{4}-\d{2}-\d{2}$/] *)
Definition dateRegex : re :=
  Cat (rep 4 Digit) (Cat (Lit 45) (Cat (rep 2 Digit) (Cat (Lit 45) (rep 2 Digit)))).

Definition validateTimeFormat (time : jsprim) : bool :=
  if negb (truthy time) then false
  else match time with
       | JStr s => test timeRegex (trim s)
       | _ => false
       end.

(** [arr[i]] of the array [date.split('-').map(Number)]; a missing
    element and NaN both read as [None]. *)
Definition item (arr : list (option Z)) (i : nat) : option Z :=
  match nth_error arr i with
  | Some v => v
  | None => None
  end.

Definition validateDateFormat (date : jsprim) : bool :=
  if negb (truthy date) then false
  else match date with
       | JStr s =>
           if negb (test dateRegex (trim s)) then false
           else
             let parts := List.map Number (split "-" s) in
             match item parts 0, item parts 1, item parts 2 with
             | Some year, Some month, Some day =>
                 let parsedDate := newDate year (month - 1) day in
                 (getFullYear parsedDate =? year)
                 && (getMonth parsedDate =? month - 1)
                 && (getDate parsedDate =? day)
             | _, _, _ => false
             end
       | _ => false
       end.

End Validators.

(* ===================================================================== *)
(** ** Session tokens *)
(* ===================================================================== *)

Module Token.

(** Identifiers of stored documents, as they appear in JSON. *)
Definition ObjectId : Type := string.

(** What a token carries: the user id, the time of issue and the expiry,
    both in seconds. *)
Record claims : Type := mkClaims {
  c_userId : ObjectId;
  c_iat : Z;
  c_exp : Z
}.

(** A token as the verifier sees it: either it does not decode at all, or
    it decodes to a payload and a signature. *)
Inductive token : Type :=
  | Malformed (raw : string)
  | Signed (payload : claims) (signature : string).

Inductive tokenError : Type := InvalidToken.

Section WithMac.

(** The keyed signature function of the signing library. *)
Variable mac : string -> claims -> string.

(** Modelled from the spec: the token library's [sign] is not part of the
    source.  [issue(userId) -> token]: a signed token embedding the user
    id and an expiry 24 hours from issuance
    ([jwt.sign({ userId }, JWT_SECRET, { expiresIn: '24h' })]). *)
Definition issue (secret : string) (now : Z) (userId : ObjectId) : token :=
  let payload := mkClaims userId now (now + 24 * 60 * 60) in
  Signed payload (mac secret payload).

(** Modelled from the spec: the token library's [verify] is not part of
    the source.  [verify(token) -> userId | fails]: checks signature
    validity and expiry; fails with [InvalidToken] if the signature does
    not match, the token is malformed, or the token has expired. *)
Definition verify (secret : string) (now : Z) (t : token) : ObjectId + tokenError :=
  match t with
  | Malformed _ => inr InvalidToken
  | Signed payload signature =>
      if negb (String.eqb signature (mac secret payload)) then inr InvalidToken
      else if c_exp payload <=? now then inr InvalidToken
      else inl (c_userId payload)
  end.

End WithMac.

End Token.

(* ===================================================================== *)
(** ** [new Date(string)] *)
(* ===================================================================== *)

Module DateParse.
Import JS Regex.

Definition msPerDay : Z := 86400000.

(** Days of month [m] (1-based) in year [y] of the Gregorian calendar. *)
Definition daysInMonth (y m : Z) : Z :=
  if m =? 2 then (if isLeap y then 29 else 28)
  else if (m =? 4) || (m =? 6) || (m =? 9) || (m =? 11) then 30
  else 31.

(** The date-only form [YYYY-MM-DD] of the Date Time String Format. *)
Definition isoDateOnly : re :=
  Cat (rep 4 Digit) (Cat (Lit 45) (Cat (rep 2 Digit) (Cat (Lit 45) (rep 2 Digit)))).

(** A string in the date-only form with legal element values denotes
    midnight UTC of that day, in milliseconds. *)
Definition parseIsoDate (s : string) : option Z :=
  if test isoDateOnly s then
    match List.map Number (split "-" s) with
    | [Some y; Some m; Some d] =>
        if (1 <=? m) && (m <=? 12) && (1 <=? d) && (d <=? daysInMonth y m)
        then Some (msPerDay * MakeDay y (m - 1) d)
        else None
    | _ => None
    end
  else None.

Section WithLegacyParser.

(** What the engine makes of a string that is not in the date-only form
    with legal values: the language leaves it to the implementation.
    [None] is NaN. *)
Variable legacyDateParse : string -> option Z.

Definition parse (s : string) : option Z :=
  match parseIsoDate s with
  | Some t => Some t
  | None => legacyDateParse s
  end.

(** [TimeClip] *)
Definition timeClip (t : Z) : option Z :=
  if Z.abs t <=? 8640000000000000 then Some t else None.

(** The time value of [new Date(v)]; [None] is an invalid date. *)
Definition newDateOf (v : jsprim) : option Z :=
  match v with
  | JStr s => parse s
  | JNum n => timeClip n
  | JBool b => Some (if b then 1 else 0)
  | JNull => Some 0
  | JUndefined => None
  end.

(** [new Date(a) > new Date(b)]: a comparison with NaN is false. *)
Definition dateGt (a b : jsprim) : bool :=
  match newDateOf a, newDateOf b with
  | Some x, Some y => y <? x
  | _, _ => false
  end.

End WithLegacyParser.

End DateParse.

(* ===================================================================== *)
(** ** The store and the request handlers *)
(* ===================================================================== *)

Module Server.
Import JS Regex Validators Token DateParse.

(** *** Documents (server.js, lines 26-85)

    A stored time-off record holds the values its [String] paths were
    cast to.  Of the schema declarations the embedding keeps the types of
    the paths, [required], the [enum] of the time-off [type], the default
    of [status] and the strictness of the schemas: a key no schema path
    declares is not stored.  The keys [_id] and [__v] of a schedule
    document are left out. *)

Record User : Type := mkUser {
  u_id : ObjectId;
  u_username : string;
  u_password : string;
  u_email : string
}.

Record TimeOff : Type := mkTimeOff {
  t_id : ObjectId;
  t_userId : ObjectId;
  t_type : jsprim;
  t_startDate : jsprim;
  t_endDate : jsprim;
  t_description : jsprim;
  t_status : string;
  t_createdAt : Z
}.

(** A schedule document is a map from field names to values; its owner is
    the field [userId]. *)
Record Store : Type := mkStore {
  users : list User;
  schedules : list (gmap string jsval);
  timeOffs : list TimeOff
}.

Inductive payload : Type :=
  | Message (message : string)
  | LoggedIn (message : string) (tok : token) (id : ObjectId) (username email : string)
  | ScheduleDoc (schedule : gmap string jsval)
  | ScheduleUpdated (message : string) (schedule : gmap string jsval)
  | TimeOffSaved (message : string) (timeOff : TimeOff).

Record response : Type := mkResponse {
  status : Z;
  body : payload
}.

Definition json (code : Z) (message : string) : response :=
  mkResponse code (Message message).

(** *** Store operations *)

(** [Model.findOne(filter)]: the first document that satisfies the filter. *)
Definition findOne {A : Type} (p : A -> bool) (docs : list A) : option A :=
  List.find p docs.

(** [Model.findOneAndUpdate(filter, update, { new: true })]: the first
    match is replaced; the result is the updated document. *)
Fixpoint findOneAndUpdate {A : Type} (p : A -> bool) (f : A -> A) (docs : list A)
  : option (A * list A) :=
  match docs with
  | [] => None
  | d :: rest =>
      if p d then Some (f d, f d :: rest)
      else match findOneAndUpdate p f rest with
           | Some (d', rest') => Some (d', d :: rest')
           | None => None
           end
  end.

(** [Model.findOneAndDelete(filter)]: the first match is removed. *)
Fixpoint findOneAndDelete {A : Type} (p : A -> bool) (docs : list A)
  : option (A * list A) :=
  match docs with
  | [] => None
  | d :: rest =>
      if p d then Some (d, rest)
      else match findOneAndDelete p rest with
           | Some (d', rest') => Some (d', d :: rest')
           | None => None
           end
  end.

(** *** Identifiers and the [String] cast of the schemas *)

Definition isHexDigit (c : ascii) : bool :=
  let n := code c in
  ((48 <=? n) && (n <=? 57)) || ((65 <=? n) && (n <=? 70)) || ((97 <=? n) && (n <=? 102)).

Fixpoint allHex (s : string) : bool :=
  match s with
  | EmptyString => true
  | String c r => isHexDigit c && allHex r
  end.

(** The lower-case form of a hexadecimal digit. *)
Definition lowerHexDigit (c : ascii) : ascii :=
  if (65 <=? code c) && (code c <=? 70) then ascii_of_N (N_of_ascii c + 32) else c.

Fixpoint lowerHex (s : string) : string :=
  match s with
  | EmptyString => EmptyString
  | String c r => String (lowerHexDigit c) (lowerHex r)
  end.

(** The cast of a string to the [ObjectId] type: a string of 24
    hexadecimal digits is the identifier the driver writes with these
    digits in lower case; a string of another form is a cast error,
    [None], and a filter or an update with such a string throws. *)
Definition castObjectId (s : string) : option ObjectId :=
  if Nat.eqb (String.length s) 24 && allHex s then Some (lowerHex s) else None.

(** The written form of an identifier: the form in which the driver
    prints it, and in which the embedding keeps stored identifiers.  The
    identifier of the caller is not cast again: it is read from a token
    the server signed over a stored identifier. *)
Definition isObjectId (s : string) : bool :=
  match castObjectId s with
  | Some o => String.eqb o s
  | None => false
  end.

Section Casting.

(** The string the [String] paths make of a primitive that is not a
    string ([toString]). *)
Variable castString : jsprim -> string.

Definition castWith (v : jsprim) : string :=
  match v with
  | JStr s => s
  | _ => castString v
  end.

(** The cast of a primitive: [null] and [undefined] pass as they are. *)
Definition castPrim (p : jsprim) : jsprim :=
  match p with
  | JUndefined | JNull => p
  | _ => JStr (castWith p)
  end.

(** The cast of a value given to a new document: an object with a
    non-empty string [_id] is cast to that string; any other object and
    every array is a cast error, [None]. *)
Definition castValue (v : jsval) : option jsprim :=
  match v with
  | JPrim p => Some (castPrim p)
  | JObj o =>
      match o !! "_id" with
      | Some (JStr s) => if String.eqb s "" then None else Some (JStr s)
      | _ => None
      end
  | JArr _ => None
  end.

End Casting.

(** [required] of a [String] path: a string that is not empty. *)
Definition requiredString (p : jsprim) : bool :=
  match p with
  | JStr s => negb (String.eqb s "")
  | _ => false
  end.

(** *** Schedule routes (server.js, lines 243-308) *)

Definition slot (startTime endTime : string) : jsval :=
  JObj (<["startTime" := JStr startTime]> (<["endTime" := JStr endTime]> ∅)).

Definition defaultSchedule (userId : ObjectId) : gmap string jsval :=
  <["userId" := JPrim (JStr userId)]>
  (<["Sunday" := slot "09:00" "17:30"]>
  (<["Monday" := slot "09:00" "17:30"]>
  (<["Tuesday" := slot "09:00" "17:30"]>
  (<["Wednesday" := slot "09:00" "17:30"]>
  (<["Thursday" := slot "09:00" "17:30"]>
  (<["Friday" := slot "09:00" "17:30"]>
  (<["Saturday" := slot "09:00" "17:30"]> ∅))))))).

Definition ownedBy (userId : ObjectId) (doc : gmap string jsval) : bool :=
  match doc !! "userId" with
  | Some (JPrim (JStr u)) => String.eqb u userId
  | _ => false
  end.

(** GET /api/schedule *)
Definition getSchedule (userId : ObjectId) (st : Store) : response * Store :=
  match findOne (ownedBy userId) (schedules st) with
  | None =>
      let doc := defaultSchedule userId in
      (mkResponse 200 (ScheduleDoc doc),
       mkStore (users st) (schedules st ++ [doc]) (timeOffs st))
  | Some schedule => (mkResponse 200 (ScheduleDoc schedule), st)
  end.

Definition days : list string :=
  ["Sunday"; "Monday"; "Tuesday"; "Wednesday"; "Thursday"; "Friday"; "Saturday"].

(** The validation loop of PUT /api/schedule: [Some message] when the loop
    returns a 400, [None] when it runs to its end. *)
Fixpoint validateDays (updatedSchedule : gmap string jsval) (ds : list string)
  : option string :=
  match ds with
  | [] => None
  | day :: rest =>
      match updatedSchedule !! day with
      | Some v =>
          if truthyVal v then
            let startTime := getProp v "startTime" in
            let endTime := getProp v "endTime" in
            if truthy startTime && negb (validateTimeFormat startTime)
            then Some ("Invalid start time format for " ++ day)%string
            else if truthy endTime && negb (validateTimeFormat endTime)
            then Some ("Invalid end time format for " ++ day)%string
            else validateDays updatedSchedule rest
          else validateDays updatedSchedule rest
      | None => validateDays updatedSchedule rest
      end
  end.

Section ScheduleUpdate.

Variable castString : jsprim -> string.

(** What the update makes of a value the schema has no object or
    identifier string for: a weekday that is not an object, a [userId]
    that is not a string.  The mapping library decides; [None] is an
    update it refuses.  The first argument is the name of the path. *)
Variable castOther : string -> jsval -> option jsval.

(** A weekday of the update document.  The schema declares
    [{ startTime, endTime }], two [String] paths, both [required]: the
    other fields of the object are dropped, the two times are cast, and
    with [runValidators] a time that is missing or empty after the cast
    makes the update fail, [None]. *)
Definition castWeekday (day : string) (v : jsval) : option jsval :=
  match v with
  | JObj o =>
      let startTime := castPrim castString (default JUndefined (o !! "startTime")) in
      let endTime := castPrim castString (default JUndefined (o !! "endTime")) in
      if requiredString startTime && requiredString endTime
      then Some (JObj (<["startTime" := startTime]> (<["endTime" := endTime]> ∅)))
      else None
  | _ => castOther day v
  end.

(** The owner of the update document, an [ObjectId] path: an identifier
    in its written form is stored as it is, a string of another form is
    refused. *)
Definition castOwner (v : jsval) : option jsval :=
  match v with
  | JPrim (JStr s) => if isObjectId s then Some v else None
  | _ => castOther "userId" v
  end.

Fixpoint castDays (updatedSchedule : gmap string jsval) (ds : list string)
  : option (gmap string jsval) :=
  match ds with
  | [] => Some ∅
  | day :: rest =>
      match castDays updatedSchedule rest with
      | None => None
      | Some m =>
          match updatedSchedule !! day with
          | None => Some m
          | Some v =>
              match castWeekday day v with
              | Some w => Some (<[day := w]> m)
              | None => None
              end
          end
      end
  end.

(** The document [$set] is applied with: of the keys of the body those
    the schema declares, cast; [None] when a cast or a validator fails. *)
Definition castScheduleUpdate (updatedSchedule : gmap string jsval)
  : option (gmap string jsval) :=
  match castDays updatedSchedule days with
  | None => None
  | Some m =>
      match updatedSchedule !! "userId" with
      | None => Some m
      | Some v =>
          match castOwner v with
          | Some w => Some (<["userId" := w]> m)
          | None => None
          end
      end
  end.

(** [{ $set: update }]: every field of the update replaces the field of
    that name. *)
Definition applySet (update doc : gmap string jsval) : gmap string jsval :=
  update ∪ doc.

(** PUT /api/schedule.  The update is cast and validated before the store
    is searched. *)
Definition updateSchedule (userId : ObjectId) (updatedSchedule : gmap string jsval)
    (st : Store) : response * Store :=
  match validateDays updatedSchedule days with
  | Some message => (json 400 message, st)
  | None =>
      match castScheduleUpdate updatedSchedule with
      | None => (json 500 "Server error", st)
      | Some update =>
          match findOneAndUpdate (ownedBy userId) (applySet update) (schedules st) with
          | None => (json 404 "Schedule not found", st)
          | Some (schedule, docs) =>
              (mkResponse 200 (ScheduleUpdated "Schedule updated successfully" schedule),
               mkStore (users st) docs (timeOffs st))
          end
      end
  end.

End ScheduleUpdate.

(** *** Time-off routes (server.js, lines 321-440) *)

Definition typeEnum : list string := ["vacation"; "dayOff"; "sickLeave"; "other"].

(** The schema validator of [type] ([required], [enum]), run by [save] and
    by [findOneAndUpdate] with [runValidators] on the value after the
    cast. *)
Definition typeAccepted (type : jsprim) : bool :=
  match type with
  | JStr s => existsb (String.eqb s) typeEnum
  | _ => false
  end.

(** [type === 'dayOff']: false of everything that is not that string. *)
Definition isDayOff (type : jsval) : bool :=
  match type with
  | JPrim (JStr s) => String.eqb s "dayOff"
  | _ => false
  end.

(** [validateDateFormat] on a body property: [typeof date !== 'string']
    holds of every object and array. *)
Definition validateDateValue (date : jsval) : bool :=
  match date with
  | JPrim p => validateDateFormat p
  | _ => false
  end.

(** The primitive handed to [new Date]: only values [validateDateFormat]
    accepted arrive there, and they are strings. *)
Definition asPrim (v : jsval) : jsprim :=
  match v with
  | JPrim p => p
  | _ => JUndefined
  end.

(** [{ _id: id, userId: req.user.id }], with the identifier [id] after
    its cast. *)
Definition matches (id userId : ObjectId) (t : TimeOff) : bool :=
  String.eqb (t_id t) id && String.eqb (t_userId t) userId.

Section TimeOffRoutes.

Variable legacyDateParse : string -> option Z.
Variable castString : jsprim -> string.

(** What an update makes of an object given for a [String] path: the
    value set, [JUndefined] when the key is dropped from the update,
    [None] when the update is refused.  The mapping library decides. *)
Variable updateObject : gmap string jsprim -> option jsprim.

(** [new TimeOff({ userId, type, startDate, endDate, description })]
    followed by [save()]: the four values are cast, then validated;
    [None] when [save] throws.  [newId] is the identifier the driver
    gives the document; the driver generates identifiers in their
    written form only, and the embedding refuses any other string. *)
Definition newTimeOff (now : Z) (newId userId : ObjectId)
    (type startDate endDate description : jsval) : option TimeOff :=
  match castValue castString type, castValue castString startDate,
        castValue castString endDate, castValue castString description with
  | Some ty, Some s, Some e, Some d =>
      if typeAccepted ty && requiredString s && requiredString e && isObjectId newId
      then Some (mkTimeOff newId userId ty s e d "pending" now)
      else None
  | _, _, _, _ => None
  end.

(** POST /api/timeoff.  [now] is [Date.now()]. *)
Definition createTimeOff (now : Z) (newId : ObjectId) (userId : ObjectId)
    (type startDate endDate description : jsval) (st : Store) : response * Store :=
  if negb (truthyVal type) || negb (truthyVal startDate)
  then (json 400 "Type and start date are required", st)
  else if negb (validateDateValue startDate)
  then (json 400 "Invalid start date format. Use YYYY-MM-DD", st)
  else
    let checked : response + jsval :=
      if isDayOff type then inr startDate
      else if negb (truthyVal endDate)
      then inl (json 400 "End date is required for vacation")
      else if negb (validateDateValue endDate)
      then inl (json 400 "Invalid end date format. Use YYYY-MM-DD")
      else if dateGt legacyDateParse (asPrim startDate) (asPrim endDate)
      then inl (json 400 "End date must be after start date")
      else inr endDate in
    match checked with
    | inl r => (r, st)
    | inr finalEndDate =>
        match newTimeOff now newId userId type startDate finalEndDate description with
        | Some timeOff =>
            (mkResponse 201 (TimeOffSaved "Time off request created successfully" timeOff),
             mkStore (users st) (schedules st) (timeOffs st ++ [timeOff]))
        | None => (json 500 "Server error", st)
        end
    end.

(** The cast of a value of the update document. *)
Definition castUpdateValue (v : jsval) : option jsprim :=
  match v with
  | JObj o => updateObject o
  | _ => castValue castString v
  end.

(** A key of the update document whose value is [undefined] is left out
    of the update: the stored field stays. *)
Definition keep (new old : jsprim) : jsprim :=
  match new with
  | JUndefined => old
  | _ => new
  end.

(** The update document [{ type, startDate, endDate: finalEndDate,
    description }] after the cast: the fields it gives are set, the
    others stay. *)
Definition setFields (type startDate finalEndDate description : jsprim) (t : TimeOff)
  : TimeOff :=
  mkTimeOff (t_id t) (t_userId t) (keep type (t_type t)) (keep startDate (t_startDate t))
            (keep finalEndDate (t_endDate t)) (keep description (t_description t))
            (t_status t) (t_createdAt t).

(** The validators [runValidators] runs on the update document: those of
    the keys it has. *)
Definition updateValid (type startDate finalEndDate : jsprim) : bool :=
  match type with JUndefined => true | _ => typeAccepted type end
  && match startDate with JUndefined => true | _ => requiredString startDate end
  && match finalEndDate with JUndefined => true | _ => requiredString finalEndDate end.

(** PUT /api/timeoff/:id.  The filter [{ _id: id, ... }] and the update
    document are cast, and the update validated, before the store is
    searched. *)
Definition updateTimeOff (userId id : ObjectId)
    (type startDate endDate description : jsval) (st : Store) : response * Store :=
  if negb (truthyVal type) || negb (truthyVal startDate)
  then (json 400 "Type and start date are required", st)
  else if negb (validateDateValue startDate)
  then (json 400 "Invalid start date format. Use YYYY-MM-DD", st)
  else
    let checked : response + jsval :=
      if isDayOff type then inr startDate
      else if negb (truthyVal endDate)
      then inl (json 400 "End date is required for vacation")
      else if negb (validateDateValue endDate)
      then inl (json 400 "Invalid end date format. Use YYYY-MM-DD")
      else if dateGt legacyDateParse (asPrim startDate) (asPrim endDate)
      then inl (json 400 "End date must be after start date")
      else inr endDate in
    match checked with
    | inl r => (r, st)
    | inr finalEndDate =>
        match castUpdateValue type, castUpdateValue startDate,
              castUpdateValue finalEndDate, castUpdateValue description with
        | Some ty, Some s, Some e, Some d =>
            match castObjectId id with
            | Some oid =>
                if updateValid ty s e then
                  match findOneAndUpdate (matches oid userId) (setFields ty s e d)
                          (timeOffs st) with
                  | None => (json 404 "Time off request not found", st)
                  | Some (timeOff, docs) =>
                      (mkResponse 200
                         (TimeOffSaved "Time off request updated successfully" timeOff),
                       mkStore (users st) (schedules st) docs)
                  end
                else (json 500 "Server error", st)
            | None => (json 500 "Server error", st)
            end
        | _, _, _, _ => (json 500 "Server error", st)
        end
    end.

End TimeOffRoutes.

(** DELETE /api/timeoff/:id.  The filter [{ _id: id, ... }] is cast
    before the store is searched. *)
Definition deleteTimeOff (userId id : ObjectId) (st : Store) : response * Store :=
  match castObjectId id with
  | None => (json 500 "Server error", st)
  | Some oid =>
      match findOneAndDelete (matches oid userId) (timeOffs st) with
      | None => (json 404 "Time off request not found", st)
      | Some (_, docs) =>
          (json 200 "Time off request deleted successfully",
           mkStore (users st) (schedules st) docs)
      end
  end.

(** *** Login (server.js, lines 203-240) *)

Section Login.

Variable castString : jsprim -> string.
(** [bcrypt.compare(candidate, hash)] *)
Variable bcryptCompare : string -> string -> bool.
Variable mac : string -> claims -> string.
Variable JWT_SECRET : string.

(** [User.findOne({ username })]: the filter casts the value to the
    [String] type of the path. *)
Definition hasUsername (username : jsprim) (u : User) : bool :=
  String.eqb (u_username u) (castWith castString username).

(** POST /api/auth/login.  [now] is the clock in seconds when the token is
    signed.  [bcrypt.compare] throws when the candidate is not a
    string. *)
Definition login (now : Z) (username password : jsprim) (st : Store) : response * Store :=
  if negb (truthy username) || negb (truthy password)
  then (json 400 "All fields are required", st)
  else
    match findOne (hasUsername username) (users st) with
    | None => (json 400 "Invalid credentials", st)
    | Some user =>
        match password with
        | JStr candidate =>
            if negb (bcryptCompare candidate (u_password user))
            then (json 400 "Invalid credentials", st)
            else
              let tok := issue mac JWT_SECRET now (u_id user) in
              (mkResponse 200
                 (LoggedIn "Login successful" tok (u_id user) (u_username user) (u_email user)),
               st)
        | _ => (json 500 "Server error", st)
        end
    end.

End Login.

(** *** Auth middleware (server.js, lines 88-102) *)

(** The middleware either hands the request on, with [req.user.id] set to
    the [userId] of the decoded payload ([None] when the payload has no
    such field), or answers it. *)
Inductive authResult : Type :=
  | Next (userId : option ObjectId)
  | Rejected (r : response).

Section Authenticate.

(** [jwt.verify(token, secret)]: the [userId] field of the payload, or
    [None] when the call throws. *)
Variable jwtVerify : string -> string -> option (option ObjectId).

(** [authorization] is [req.header('Authorization')]. *)
Definition authenticate (secret : string) (authorization : option string) : authResult :=
  match authorization with
  | None => Rejected (json 401 "Authentication required")
  | Some header =>
      let token := removeFirst "Bearer " header in
      if String.eqb token "" then Rejected (json 401 "Authentication required")
      else match jwtVerify token secret with
           | Some userId => Next userId
           | None => Rejected (json 401 "Invalid or expired token")
           end
  end.

End Authenticate.

(** *** Registration (server.js, lines 143-201) *)

(** [{ $or: [{ email }, { username }] }] *)
Definition taken (username email : string) (u : User) : bool :=
  String.eqb (u_email u) email || String.eqb (u_username u) username.

Section Register.

Variable castString : jsprim -> string.
(** [bcrypt.hash(password, salt)] *)
Variable bcryptHash : string -> string -> string.
Variable mac : string -> claims -> string.
Variable JWT_SECRET : string.

(** POST /api/auth/register.  [salt] is the result of [bcrypt.genSalt],
    [newId] the identifier given to the new user and [now] the clock in
    seconds when the token is signed.  The answer has the shape of the
    login answer.  A [required] path left empty by the cast makes [save]
    throw. *)
Definition register (now : Z) (newId : ObjectId) (salt : string)
    (username email password : jsprim) (st : Store) : response * Store :=
  if negb (truthy username) || negb (truthy email) || negb (truthy password)
  then (json 400 "All fields are required", st)
  else
    let name := castWith castString username in
    let mail := castWith castString email in
    match findOne (taken name mail) (users st) with
    | Some _ => (json 400 "User already exists", st)
    | None =>
        match password with
        | JStr plain =>
            let hashedPassword := bcryptHash plain salt in
            if String.eqb name "" || String.eqb mail ""
            then (json 500 "Server error", st)
            else
              let user := mkUser newId name hashedPassword mail in
              let tok := issue mac JWT_SECRET now newId in
              (mkResponse 201
                 (LoggedIn "User registered successfully" tok newId name mail),
               mkStore (users st ++ [user])
                 (schedules st ++ [defaultSchedule newId]) (timeOffs st))
        | _ => (json 500 "Server error", st)
        end
    end.

End Register.

(** *** GET /api/timeoff (server.js, lines 311-319) *)

(** [sort({ createdAt: -1 })], as an insertion sort; the store does not
    say in which order it returns records of equal [createdAt]. *)
Fixpoint insertDesc (t : TimeOff) (l : list TimeOff) : list TimeOff :=
  match l with
  | [] => [t]
  | x :: rest =>
      if t_createdAt x <? t_createdAt t then t :: l else x :: insertDesc t rest
  end.

Definition sortDesc (l : list TimeOff) : list TimeOff := fold_right insertDesc [] l.

Definition ownedByUser (userId : ObjectId) (t : TimeOff) : bool :=
  String.eqb (t_userId t) userId.

(** The status and the array of the answer. *)
Definition listTimeOff (userId : ObjectId) (st : Store) : Z * list TimeOff :=
  (200, sortDesc (List.filter (ownedByUser userId) (timeOffs st))).

(** *** The routes together *)

(** A request, with what its handler takes from the environment. *)
Inductive request : Type :=
  | PostRegister (now : Z) (newId : ObjectId) (salt : string)
      (username email password : jsprim)
  | PostLogin (now : Z) (username password : jsprim)
  | GetSchedule (userId : ObjectId)
  | PutSchedule (userId : ObjectId) (updatedSchedule : gmap string jsval)
  | GetTimeOff (userId : ObjectId)
  | PostTimeOff (now : Z) (newId userId : ObjectId)
      (type startDate endDate description : jsval)
  | PutTimeOff (userId id : ObjectId) (type startDate endDate description : jsval)
  | DeleteTimeOff (userId id : ObjectId).

Section Routes.

Variable legacyDateParse : string -> option Z.
Variable castString : jsprim -> string.
Variable castOther : string -> jsval -> option jsval.
Variable updateObject : gmap string jsprim -> option jsprim.
Variable bcryptHash : string -> string -> string.
Variable bcryptCompare : string -> string -> bool.
Variable mac : string -> claims -> string.
Variable JWT_SECRET : string.

(** The store after the handler of the request has run. *)
Definition storeAfter (r : request) (st : Store) : Store :=
  match r with
  | PostRegister now newId salt username email password =>
      snd (register castString bcryptHash mac JWT_SECRET now newId salt
             username email password st)
  | PostLogin now username password =>
      snd (login castString bcryptCompare mac JWT_SECRET now username password st)
  | GetSchedule userId => snd (getSchedule userId st)
  | PutSchedule userId updatedSchedule =>
      snd (updateSchedule castString castOther userId updatedSchedule st)
  | GetTimeOff userId => st
  | PostTimeOff now newId userId type startDate endDate description =>
      snd (createTimeOff legacyDateParse castString now newId userId
             type startDate endDate description st)
  | PutTimeOff userId id type startDate endDate description =>
      snd (updateTimeOff legacyDateParse castString updateObject userId id
             type startDate endDate description st)
  | DeleteTimeOff userId id => snd (deleteTimeOff userId id st)
  end.

(** The store after a sequence of requests, served one after the other. *)
Definition serve (rs : list request) (st : Store) : Store :=
  fold_left (fun s r => storeAfter r s) rs st.

End Routes.

End Server.

(* ===================================================================== *)
(** ** Reference definitions used to state the properties *)
(* ===================================================================== *)

Module Reference.
Import JS Validators DateParse Token Server.

Fixpoint allSpace (s : string) : bool :=
  match s with
  | EmptyString => true
  | String c r => isSpace c && allSpace r
  end.

Fixpoint noSpace (s : string) : bool :=
  match s with
  | EmptyString => true
  | String c r => negb (isSpace c) && noSpace r
  end.

(** Four digits, dash, two digits, dash, two digits: the year, month and
    day numerals of a string of exactly that shape. *)
Definition readYMD (t : string) : option (Z * Z * Z) :=
  match t with
  | String y1 (String y2 (String y3 (String y4 (String p (String m1 (String m2
      (String q (String d1 (String d2 EmptyString))))))))) =>
      if isDigit y1 && isDigit y2 && isDigit y3 && isDigit y4 && (code p =? 45)
         && isDigit m1 && isDigit m2 && (code q =? 45) && isDigit d1 && isDigit d2
      then Some (1000 * digitVal y1 + 100 * digitVal y2 + 10 * digitVal y3 + digitVal y4,
                 10 * digitVal m1 + digitVal m2,
                 10 * digitVal d1 + digitVal d2)
      else None
  | _ => None
  end.

(** Year, month and day form a real calendar date. *)
Definition realDate (y m d : Z) : bool :=
  (1 <=? m) && (m <=? 12) && (1 <=? d) && (d <=? daysInMonth y m).

(** [isValidDate] in the words of the specification: the string has the
    shape YYYY-MM-DD and its numerals form a real calendar date. *)
Definition isValidDate (s : string) : bool :=
  match readYMD s with
  | Some (y, m, d) => realDate y m d
  | None => false
  end.

(** Calendar order of two dates given by their numerals. *)
Definition earlier (a b : Z * Z * Z) : Prop :=
  let '(y1, m1, d1) := a in
  let '(y2, m2, d2) := b in
  y1 < y2 \/ (y1 = y2 /\ (m1 < m2 \/ (m1 = m2 /\ d1 < d2))).

(** A reading of date strings the date-only form leaves to the engine:
    a date with white space around it is midnight of that day in local
    time, [behindUtc] milliseconds after midnight UTC; anything else is
    NaN. *)
Definition localMidnight (behindUtc : Z) (s : string) : option Z :=
  match readYMD (trim s) with
  | Some (y, m, d) =>
      if realDate y m d then Some (msPerDay * MakeDay y (m - 1) d + behindUtc) else None
  | None => None
  end.

(** The single-day rule of the data model: a stored day off ends on the
    day it starts. *)
Definition dayOffSingleDay (st : Store) : Prop :=
  forall t, In t (timeOffs st) -> t_type t = JStr "dayOff" -> t_endDate t = t_startDate t.

(** No stored time-off record has this id and this owner. *)
Definition noOwnedRecord (userId id : ObjectId) (st : Store) : Prop :=
  forall t, In t (timeOffs st) -> t_id t = id -> t_userId t <> userId.








(** Two digits, colon, two digits: the hour and minute numerals of a
    string of exactly that shape. *)
Definition readHM (t : string) : option (Z * Z) :=
  match t with
  | String h1 (String h2 (String p (String m1 (String m2 EmptyString)))) =>
      if isDigit h1 && isDigit h2 && (code p =? 58) && isDigit m1 && isDigit m2
      then Some (10 * digitVal h1 + digitVal h2, 10 * digitVal m1 + digitVal m2)
      else None
  | _ => None
  end.

(** Usernames and e-mail addresses are each globally unique. *)
Definition uniqueUsers (st : Store) : Prop :=
  NoDup (List.map u_username (users st)) /\ NoDup (List.map u_email (users st)).

(** What every handler checks before it stores a time-off record. *)
Definition wellFormed (legacyDateParse : string -> option Z) (t : TimeOff) : Prop :=
  t_status t = "pending"
  /\ typeAccepted (t_type t) = true
  /\ validateDateFormat (t_startDate t) = true
  /\ validateDateFormat (t_endDate t) = true
  /\ dateGt legacyDateParse (t_startDate t) (t_endDate t) = false.

(** Newest first. *)
Definition newestFirst (l : list TimeOff) : Prop :=
  StronglySorted (fun a b => t_createdAt b <= t_createdAt a) l.

(** The authenticated user on whose behalf a request acts. *)
Definition actor (r : request) : option ObjectId :=
  match r with
  | PostRegister _ _ _ _ _ _ | PostLogin _ _ _ => None
  | GetSchedule userId | PutSchedule userId _ | GetTimeOff userId => Some userId
  | PostTimeOff _ _ userId _ _ _ _ => Some userId
  | PutTimeOff userId _ _ _ _ _ | DeleteTimeOff userId _ => Some userId
  end.

(** [String(p)] of a primitive: the cast the examples below run with. *)
Definition printPrim (p : jsprim) : string :=
  match p with
  | JUndefined => "undefined"
  | JNull => "null"
  | JBool true => "true"
  | JBool false => "false"
  | JNum n => pretty n
  | JStr s => s
  end.

(** The checks the create and the update handler make on the body before
    they build the document: the answer that ends the request, or the end
    date to store. *)
Definition timeOffCheck (legacyDateParse : string -> option Z)
    (type startDate endDate : jsval) : response + jsval :=
  if negb (truthyVal type) || negb (truthyVal startDate)
  then inl (json 400 "Type and start date are required")
  else if negb (validateDateValue startDate)
  then inl (json 400 "Invalid start date format. Use YYYY-MM-DD")
  else if isDayOff type then inr startDate
  else if negb (truthyVal endDate)
  then inl (json 400 "End date is required for vacation")
  else if negb (validateDateValue endDate)
  then inl (json 400 "Invalid end date format. Use YYYY-MM-DD")
  else if dateGt legacyDateParse (asPrim startDate) (asPrim endDate)
  then inl (json 400 "End date must be after start date")
  else inr endDate.

End Reference.

(* ===================================================================== *)
(** * Properties *)
(* ===================================================================== *)

Import JS Regex Validators DateParse Token Server Reference.
Local Open Scope list_scope.

Ltac zdiv := Z.div_mod_to_equations; lia.

(** ** The calendar *)

Lemma DayFromYear_step y : DayFromYear (y + 1) = DayFromYear y + DaysInYear y.
Proof.
  unfold DayFromYear, DaysInYear, isLeap.
  destruct (y mod 4 =? 0) eqn:E4; destruct (y mod 100 =? 0) eqn:E100;
    destruct (y mod 400 =? 0) eqn:E400; simpl;
    rewrite ?Z.eqb_eq, ?Z.eqb_neq in *; zdiv.
Qed.

Lemma YearFromDay_spec n :
  DayFromYear (YearFromDay n) <= n < DayFromYear (YearFromDay n + 1).
Proof.
  unfold YearFromDay.
  destruct (Z.ltb_spec n (DayFromYear (1970 + 400 * n / 146097))).
  - unfold DayFromYear in *. zdiv.
  - destruct (Z.leb_spec (DayFromYear (1970 + 400 * n / 146097 + 1)) n).
    + unfold DayFromYear in *. zdiv.
    + lia.
Qed.

Lemma DayFromYear_mono a b : a <= b -> DayFromYear a <= DayFromYear b.
Proof. intros H. unfold DayFromYear. zdiv. Qed.

Lemma YearFromDay_unique n y :
  DayFromYear y <= n < DayFromYear (y + 1) -> YearFromDay n = y.
Proof.
  intros [H1 H2]. pose proof (YearFromDay_spec n) as [H3 H4].
  destruct (Z.lt_trichotomy (YearFromDay n) y) as [L | [E | G]]; [ | exact E | ].
  - pose proof (DayFromYear_mono (YearFromDay n + 1) y ltac:(lia)). lia.
  - pose proof (DayFromYear_mono (y + 1) (YearFromDay n) ltac:(lia)). lia.
Qed.

Lemma DayWithinYear_range n : 0 <= DayWithinYear n < DaysInYear (YearFromDay n).
Proof.
  unfold DayWithinYear. pose proof (YearFromDay_spec n) as H.
  rewrite DayFromYear_step in H. lia.
Qed.

Ltac month_cases m :=
  let C := fresh "C" in
  assert (m = 0 \/ m = 1 \/ m = 2 \/ m = 3 \/ m = 4 \/ m = 5 \/ m = 6 \/ m = 7
          \/ m = 8 \/ m = 9 \/ m = 10 \/ m = 11) as C by lia;
  repeat (destruct C as [-> | C]); try subst m.

(** Replace every [monthStart b k] by its value. *)
Ltac norm_ms :=
  repeat match goal with
         | |- context [monthStart ?b ?k] =>
             let v := eval vm_compute in (monthStart b k) in
             change (monthStart b k) with v
         | H : context [monthStart ?b ?k] |- _ =>
             let v := eval vm_compute in (monthStart b k) in
             change (monthStart b k) with v in H
         end.

(** Settle every [a <? b] of the goal by arithmetic. *)
Ltac decide_ltb :=
  repeat match goal with
         | |- context [?a <? ?b] =>
             first [ replace (a <? b) with true by (symmetry; apply Z.ltb_lt; lia)
                   | replace (a <? b) with false by (symmetry; apply Z.ltb_ge; lia) ];
             cbv iota
         end.

(** The length of a month is the distance between two month starts. *)
Lemma monthStart_diff y m :
  0 <= m <= 11 ->
  monthStart (isLeap y) (m + 1) - monthStart (isLeap y) m = daysInMonth y (m + 1)
  /\ 0 <= monthStart (isLeap y) m
  /\ monthStart (isLeap y) (m + 1) <= DaysInYear y.
Proof.
  intros Hm. unfold daysInMonth, DaysInYear.
  destruct (isLeap y); month_cases m; norm_ms; (split; [reflexivity | lia]).
Qed.

Lemma MonthFromDay_eq n m :
  0 <= m <= 11 ->
  monthStart (isLeap (YearFromDay n)) m <= DayWithinYear n
    < monthStart (isLeap (YearFromDay n)) (m + 1) ->
  MonthFromDay n = m.
Proof.
  intros Hm H. unfold MonthFromDay.
  set (d := DayWithinYear n) in *. set (l := isLeap (YearFromDay n)) in *.
  destruct l; month_cases m; norm_ms; decide_ltb; reflexivity.
Qed.

Lemma MonthFromDay_bounds n :
  0 <= MonthFromDay n <= 11 /\
  monthStart (isLeap (YearFromDay n)) (MonthFromDay n) <= DayWithinYear n
    < monthStart (isLeap (YearFromDay n)) (MonthFromDay n + 1).
Proof.
  pose proof (DayWithinYear_range n) as R. unfold DaysInYear in R.
  remember (MonthFromDay n) as m eqn:Hm. unfold MonthFromDay in Hm.
  set (d := DayWithinYear n) in *. set (l := isLeap (YearFromDay n)) in *.
  destruct l; norm_ms;
    repeat match type of Hm with
           | context [?a <? ?b] => destruct (Z.ltb_spec a b); cbv iota in Hm
           end; subst m; norm_ms; lia.
Qed.

(** The fields of any day are a date of the calendar. *)
Lemma civil_legal n :
  0 <= MonthFromDay n <= 11 /\
  1 <= DateFromDay n <= daysInMonth (YearFromDay n) (MonthFromDay n + 1).
Proof.
  destruct (MonthFromDay_bounds n) as [Hm Hd].
  destruct (monthStart_diff (YearFromDay n) (MonthFromDay n) Hm) as [D _].
  unfold DateFromDay. lia.
Qed.

(** A date of the calendar is the date of its day. *)
Lemma civil_of_MakeDay y m d :
  0 <= m <= 11 -> 1 <= d <= daysInMonth y (m + 1) ->
  YearFromDay (MakeDay y m d) = y /\
  MonthFromDay (MakeDay y m d) = m /\
  DateFromDay (MakeDay y m d) = d.
Proof.
  intros Hm Hd.
  destruct (monthStart_diff y m Hm) as [D [D0 D1]].
  assert (E : MakeDay y m d = DayFromYear y + monthStart (isLeap y) m + d - 1).
  { unfold MakeDay. rewrite (Z.div_small m 12), (Z.mod_small m 12), Z.add_0_r by lia.
    reflexivity. }
  assert (HY : YearFromDay (MakeDay y m d) = y).
  { apply YearFromDay_unique. rewrite DayFromYear_step, E. lia. }
  assert (HM : MonthFromDay (MakeDay y m d) = m).
  { apply MonthFromDay_eq; [exact Hm |]. unfold DayWithinYear. rewrite HY, E. lia. }
  split; [exact HY | split; [exact HM |]].
  unfold DateFromDay, DayWithinYear. rewrite HM, HY, E. lia.
Qed.

Lemma monthStart_nonneg l k : 0 <= monthStart l k.
Proof.
  unfold monthStart.
  destruct l;
    repeat match goal with
           | |- context [if ?c then _ else _] => destruct c
           end; lia.
Qed.

(** The three comparisons at the end of [validateDateFormat]. *)
Lemma date_fields_check y m d :
  0 <= y ->
  (getFullYear (newDate y (m - 1) d) =? y)
  && (getMonth (newDate y (m - 1) d) =? m - 1)
  && (getDate (newDate y (m - 1) d) =? d)
  = (100 <=? y) && realDate y m d.
Proof.
  intros Hy. unfold getFullYear, getMonth, getDate, realDate.
  apply eq_true_iff_eq. rewrite !andb_true_iff, !Z.eqb_eq, !Z.leb_le. split.
  - intros [[HY HM] HD].
    pose proof (civil_legal (newDate y (m - 1) d)) as [L1 L2].
    rewrite HY, HM, HD in *. replace (m - 1 + 1) with m in L2 by lia.
    assert (100 <= y); [ | lia].
    destruct (Z.le_gt_cases 100 y) as [G | G]; [exact G | exfalso].
    pose proof (YearFromDay_spec (newDate y (m - 1) d)) as [_ S]. rewrite HY in S.
    unfold newDate in S.
    replace ((0 <=? y) && (y <=? 99)) with true in S
      by (symmetry; apply andb_true_iff; split; apply Z.leb_le; lia).
    pose proof (DayFromYear_mono (y + 1) (1900 + y) ltac:(lia)) as Mo.
    unfold MakeDay in S.
    rewrite (Z.div_small (m - 1) 12), Z.add_0_r in S by lia.
    pose proof (monthStart_nonneg (isLeap (1900 + y)) ((m - 1) mod 12)).
    lia.
  - intros [G [[[M1 M2] D1] D2]].
    unfold newDate.
    replace ((0 <=? y) && (y <=? 99)) with false
      by (symmetry; apply andb_false_iff; right; apply Z.leb_gt; lia).
    destruct (civil_of_MakeDay y (m - 1) d) as [HY [HM HD]];
      [lia | replace (m - 1 + 1) with m by lia; lia | ].
    auto.
Qed.

(** ** Strings: [trim], [split] and [Number] on padded digit strings *)

Lemma append_cons c a b : String c a +:+ b = String c (a +:+ b).
Proof. reflexivity. Qed.

Lemma append_nil b : "" +:+ b = b.
Proof. reflexivity. Qed.

Ltac app := rewrite ?append_cons, ?append_nil in *.

Lemma isDigit_not_space c : isDigit c = true -> isSpace c = false.
Proof.
  unfold isDigit, isSpace. intros H. apply andb_prop in H as [H1 H2].
  apply Z.leb_le in H1, H2.
  repeat match goal with
         | |- context [?a <=? ?b] => destruct (Z.leb_spec a b)
         | |- context [?a =? ?b] => destruct (Z.eqb_spec a b)
         end; try reflexivity; lia.
Qed.

Lemma isDigit_not_dash c : isDigit c = true -> Ascii.eqb c "-" = false.
Proof. intros H. destruct (Ascii.eqb_spec c "-"); [subst; discriminate | reflexivity]. Qed.

Lemma isSpace_not_dash c : isSpace c = true -> Ascii.eqb c "-" = false.
Proof. intros H. destruct (Ascii.eqb_spec c "-"); [subst; discriminate | reflexivity]. Qed.

Lemma code_dash c : (code c =? 45) = true -> c = "-"%char.
Proof.
  intros H. apply Z.eqb_eq in H. unfold code in H.
  assert (E : N_of_ascii c = 45%N) by lia.
  rewrite <- (ascii_N_embedding c), E. reflexivity.
Qed.

Lemma digitVal_range c : isDigit c = true -> 0 <= digitVal c <= 9.
Proof.
  unfold isDigit, digitVal. intros H. apply andb_prop in H as [H1 H2].
  apply Z.leb_le in H1, H2. lia.
Qed.

Lemma trimStart_decomp s : exists a, s = a +:+ trimStart s /\ allSpace a = true.
Proof.
  induction s as [| c r [a [E A]]]; [exists ""; split; reflexivity |].
  cbn [trimStart]. destruct (isSpace c) eqn:S.
  - exists (String c a). split; [app; f_equal; exact E | cbn; rewrite S, A; reflexivity].
  - exists "". split; reflexivity.
Qed.

Lemma trimEnd_decomp s : exists b, s = trimEnd s +:+ b /\ allSpace b = true.
Proof.
  induction s as [| c r [b [E A]]]; [exists ""; split; reflexivity |].
  cbn [trimEnd]. destruct (trimEnd r) eqn:T.
  - destruct (isSpace c) eqn:S.
    + exists (String c b). app. subst r. split; [reflexivity | cbn; rewrite S, A; reflexivity].
    + exists b. app. split; [f_equal; exact E | exact A].
  - exists b. split; [app; f_equal; exact E | exact A].
Qed.

(** A string is its trimmed part between two runs of white space. *)
Lemma trim_decomp s :
  exists a b, s = a +:+ trim s +:+ b /\ allSpace a = true /\ allSpace b = true.
Proof.
  destruct (trimStart_decomp s) as [a [E A]].
  destruct (trimEnd_decomp (trimStart s)) as [b [E' B]].
  exists a, b. unfold trim. rewrite <- E'. auto.
Qed.

Lemma trimStart_app_space a x : allSpace a = true -> trimStart (a +:+ x) = trimStart x.
Proof.
  induction a as [| c r IH]; app; cbn [trimStart allSpace]; [reflexivity |].
  intros H. apply andb_prop in H as [H1 H2]. rewrite H1. auto.
Qed.

Lemma trimEnd_space b : allSpace b = true -> trimEnd b = "".
Proof.
  induction b as [| c r IH]; cbn [trimEnd allSpace]; [reflexivity |].
  intros H. apply andb_prop in H as [H1 H2]. rewrite (IH H2), H1. reflexivity.
Qed.

Lemma trimEnd_noSpace_app d b :
  noSpace d = true -> allSpace b = true -> trimEnd (d +:+ b) = d.
Proof.
  intros D B. induction d as [| c r IH]; app; cbn [trimEnd noSpace] in *;
    [apply trimEnd_space; exact B |].
  apply andb_prop in D as [D1 D2]. rewrite (IH D2).
  destruct r; [ | reflexivity].
  apply negb_true_iff in D1. rewrite D1. reflexivity.
Qed.

Lemma trim_sandwich a b c r :
  noSpace (String c r) = true -> allSpace a = true -> allSpace b = true ->
  trim (a +:+ String c r +:+ b) = String c r.
Proof.
  intros D A B. unfold trim. rewrite trimStart_app_space by exact A.
  pose proof D as D'. cbn [noSpace] in D'. apply andb_prop in D' as [D1 _].
  apply negb_true_iff in D1.
  rewrite append_cons. cbn [trimStart]. rewrite D1. rewrite <- append_cons.
  apply trimEnd_noSpace_app; assumption.
Qed.

Lemma split_space_prefix a x p ps :
  allSpace a = true -> split "-" x = p :: ps ->
  split "-" (a +:+ x) = (a +:+ p) :: ps.
Proof.
  intros A E. induction a as [| c r IH]; app; cbn [split]; [exact E |].
  cbn [allSpace] in A. apply andb_prop in A as [H1 H2].
  rewrite (isSpace_not_dash _ H1), (IH H2). reflexivity.
Qed.

Lemma split_space b : allSpace b = true -> split "-" b = [b].
Proof.
  induction b as [| c r IH]; cbn [split allSpace]; [reflexivity |].
  intros H. apply andb_prop in H as [H1 H2].
  rewrite (isSpace_not_dash _ H1), (IH H2). reflexivity.
Qed.

Lemma Number_digits a b c r v :
  noSpace (String c r) = true -> allSpace a = true -> allSpace b = true ->
  digitsValue 0 (String c r) = Some v -> Number (a +:+ String c r +:+ b) = Some v.
Proof. intros D A B V. unfold Number. rewrite trim_sandwich; assumption. Qed.

(** Destructs a successful [readYMD t] into its ten characters. *)
Ltac invert_readYMD R t :=
  unfold readYMD in R;
  do 10 (destruct t as [| ?c t]; [discriminate R |]);
  destruct t; [| discriminate R];
  repeat match type of R with
         | context [isDigit ?c] =>
             let E := fresh "E" in destruct (isDigit c) eqn:E; [| discriminate R]
         | context [code ?c =? 45] =>
             let E := fresh "E" in destruct (code c =? 45) eqn:E; [| discriminate R]
         end;
  cbn [andb] in R.

Lemma readYMD_range t y m d :
  readYMD t = Some (y, m, d) -> 0 <= y <= 9999 /\ 0 <= m <= 99 /\ 0 <= d <= 99.
Proof.
  intros R. invert_readYMD R t. injection R as <- <- <-.
  repeat match goal with
         | H : isDigit ?c = true |- _ => apply digitVal_range in H
         end.
  lia.
Qed.

(** The three numbers the validator reads off a padded date string. *)
Lemma parts_of_padded a b t y m d :
  allSpace a = true -> allSpace b = true -> readYMD t = Some (y, m, d) ->
  List.map Number (split "-" (a +:+ t +:+ b)) = [Some y; Some m; Some d].
Proof.
  intros A B R. invert_readYMD R t. injection R as <- <- <-.
  apply code_dash in E3, E6. subst c3 c6. app.
  rewrite (split_space_prefix a _ (String c (String c0 (String c1 (String c2 ""))))
             [String c4 (String c5 ""); String c7 (String c8 b)] A).
  2:{ cbn [split].
      rewrite (isDigit_not_dash _ E), (isDigit_not_dash _ E0), (isDigit_not_dash _ E1),
        (isDigit_not_dash _ E2), (isDigit_not_dash _ E4), (isDigit_not_dash _ E5),
        (isDigit_not_dash _ E7), (isDigit_not_dash _ E8), (split_space b B).
      reflexivity. }
  cbn [List.map].
  assert (NS : forall x, isDigit x = true -> negb (isSpace x) = true)
    by (intros x Hx; rewrite (isDigit_not_space _ Hx); reflexivity).
  change (a +:+ String c (String c0 (String c1 (String c2 ""))))
    with (a +:+ String c (String c0 (String c1 (String c2 ""))) +:+ "").
  change (String c4 (String c5 "")) with ("" +:+ String c4 (String c5 "") +:+ "").
  change (String c7 (String c8 b)) with ("" +:+ String c7 (String c8 "") +:+ b).
  rewrite (Number_digits a "" c _
             (1000 * digitVal c + 100 * digitVal c0 + 10 * digitVal c1 + digitVal c2)),
          (Number_digits "" "" c4 _ (10 * digitVal c4 + digitVal c5)),
          (Number_digits "" b c7 _ (10 * digitVal c7 + digitVal c8));
    try reflexivity; try assumption;
    cbn [noSpace digitsValue]; rewrite ?E, ?E0, ?E1, ?E2, ?E4, ?E5, ?E7, ?E8, ?NS by assumption;
    try reflexivity; f_equal; lia.
Qed.

(** The date pattern accepts exactly the strings [readYMD] reads. *)
Lemma test_dateRegex_readYMD t :
  test dateRegex t = match readYMD t with Some _ => true | None => false end.
Proof.
  unfold test, dateRegex, readYMD. cbn [rep accept].
  do 10 (destruct t as [| ?c t];
         [ repeat (match goal with
                   | |- context [isDigit ?b] => destruct (isDigit b)
                   end; cbn [andb]);
           try reflexivity;
           repeat (match goal with
                   | |- context [code ?b =? 45] => destruct (code b =? 45)
                   end; cbn [andb]);
           reflexivity | ]).
  repeat (match goal with
          | |- context [isDigit ?b] => destruct (isDigit b)
          end; cbn [andb]; try reflexivity);
  repeat (match goal with
          | |- context [code ?b =? 45] => destruct (code b =? 45)
          end; cbn [andb]; try reflexivity);
  destruct t; reflexivity.
Qed.

(** What [validateDateFormat] computes on a string. *)
Lemma validateDateFormat_str s :
  validateDateFormat (JStr s)
  = match readYMD (trim s) with
    | Some (y, m, d) => (100 <=? y) && realDate y m d
    | None => false
    end.
Proof.
  unfold validateDateFormat. cbn [truthy]. rewrite negb_involutive.
  destruct (String.eqb_spec s "") as [-> | Hs]; [reflexivity |].
  rewrite test_dateRegex_readYMD.
  destruct (readYMD (trim s)) as [[[y m] d] |] eqn:R; [| reflexivity].
  cbn [negb].
  destruct (trim_decomp s) as [a [b [E [A B]]]].
  replace (split "-" s) with (split "-" (a +:+ trim s +:+ b)) by (rewrite <- E; reflexivity).
  rewrite (parts_of_padded a b (trim s) y m d A B R).
  cbn [item nth_error].
  apply date_fields_check. apply readYMD_range in R. lia.
Qed.

(** ** The time validator on the examples of the specification *)

Example validateTimeFormat_examples :
  validateTimeFormat (JStr "23:59") = true
  /\ validateTimeFormat (JStr "24:00") = false
  /\ validateTimeFormat (JStr "9:00") = false
  /\ validateTimeFormat (JStr "") = false
  /\ validateTimeFormat (JStr " 09:00 ") = true
  /\ validateTimeFormat (JNum 900) = false.
Proof. repeat split; vm_compute; reflexivity. Qed.

(* ===================================================================== *)
(** ** C1: [validateDateFormat] *)
(* ===================================================================== *)

(** C1, as stated, fails: a date padded with white space is accepted
    although the string itself is not of the shape YYYY-MM-DD (the
    pattern is tested on the trimmed string). *)
Lemma validateDateFormat_accepts_padded :
  validateDateFormat (JStr " 2023-02-28") = true /\ isValidDate " 2023-02-28" = false.
Proof. split; vm_compute; reflexivity. Qed.

(** A real calendar date whose year is below 100 is rejected: the
    [Date] constructor reads such a year as 1900 + year. *)
Lemma validateDateFormat_rejects_year_50 :
  isValidDate "0050-01-01" = true /\ validateDateFormat (JStr "0050-01-01") = false.
Proof. split; vm_compute; reflexivity. Qed.

(** C1 (amended): [validateDateFormat s] is true only if [s], with
    surrounding white space trimmed, has the shape YYYY-MM-DD and its
    numerals form a real calendar date (so no out-of-range value is
    normalized into an accepted date); it is true for every such string
    whose year is 0100 or later; and it gives the four listed results. *)
Theorem validateDateFormat_calendar :
  (forall s, validateDateFormat (JStr s) = true -> isValidDate (trim s) = true)
  /\ (forall s y m d,
        readYMD (trim s) = Some (y, m, d) -> 100 <= y -> realDate y m d = true ->
        validateDateFormat (JStr s) = true)
  /\ validateDateFormat (JStr "2023-02-28") = true
  /\ validateDateFormat (JStr "2023-02-30") = false
  /\ validateDateFormat (JStr "2023-13-01") = false
  /\ validateDateFormat (JStr "2023-2-1") = false.
Proof.
  split; [| split].
  - intros s H. rewrite validateDateFormat_str in H. unfold isValidDate.
    destruct (readYMD (trim s)) as [[[y m] d] |]; [| discriminate].
    apply andb_prop in H as [_ H]. exact H.
  - intros s y m d R Hy Hr. rewrite validateDateFormat_str, R, Hr.
    apply andb_true_iff. split; [apply Z.leb_le; exact Hy | reflexivity].
  - repeat split; vm_compute; reflexivity.
Qed.

Lemma validateDateFormat_calendar_witness :
  validateDateFormat (JStr "  2024-02-29 ") = true.
Proof.
  apply (proj1 (proj2 validateDateFormat_calendar) "  2024-02-29 " 2024 2 29).
  - reflexivity.
  - lia.
  - reflexivity.
Defined.

(* ===================================================================== *)
(** ** C4: session tokens *)
(* ===================================================================== *)

(** C4: a token verified at the moment it was issued for [U], or at any
    later moment before its expiry 24 hours after issue, yields [U]; from
    the expiry on, verification fails with [InvalidToken]; a token that is
    malformed or whose signature is not the one of its payload fails with
    [InvalidToken]. *)
Theorem token_round_trip (mac : string -> claims -> string) (secret : string)
    (U : ObjectId) (issuedAt : Z) :
  verify mac secret issuedAt (issue mac secret issuedAt U) = inl U
  /\ (forall now, issuedAt <= now < issuedAt + 86400 ->
        verify mac secret now (issue mac secret issuedAt U) = inl U)
  /\ (forall now, issuedAt + 86400 <= now ->
        verify mac secret now (issue mac secret issuedAt U) = inr InvalidToken)
  /\ (forall now raw, verify mac secret now (Malformed raw) = inr InvalidToken)
  /\ (forall now payload signature,
        signature <> mac secret payload ->
        verify mac secret now (Signed payload signature) = inr InvalidToken).
Proof.
  assert (V : forall now,
             verify mac secret now (issue mac secret issuedAt U)
             = if issuedAt + 86400 <=? now then inr InvalidToken else inl U).
  { intros now. unfold verify, issue. rewrite String.eqb_refl. reflexivity. }
  repeat split.
  - rewrite V. destruct (Z.leb_spec (issuedAt + 86400) issuedAt); [lia | reflexivity].
  - intros now H. rewrite V. destruct (Z.leb_spec (issuedAt + 86400) now); [lia | reflexivity].
  - intros now H. rewrite V. destruct (Z.leb_spec (issuedAt + 86400) now); [reflexivity | lia].
  - intros now payload signature H. unfold verify.
    destruct (String.eqb_spec signature (mac secret payload)); [contradiction | reflexivity].
Qed.

Lemma token_round_trip_witness :
  verify (fun k p => k +:+ c_userId p) "key" 100 (issue (fun k p => k +:+ c_userId p) "key" 0 "u1")
  = inl "u1"
  /\ verify (fun k p => k +:+ c_userId p) "key" 86400
       (issue (fun k p => k +:+ c_userId p) "key" 0 "u1") = inr InvalidToken
  /\ verify (fun k p => k +:+ c_userId p) "key" 5 (Signed (mkClaims "u2" 0 86400) "keyu1")
     = inr InvalidToken.
Proof.
  pose proof (token_round_trip (fun k p => k +:+ c_userId p) "key" "u1" 0)
    as [_ [A [B [_ C]]]].
  split; [apply A; lia | split; [apply B; lia | apply C; discriminate]].
Defined.

(* ===================================================================== *)
(** ** The store operations *)
(* ===================================================================== *)

Section StoreOps.
Context {A : Type}.
Implicit Types (p : A -> bool) (f : A -> A) (docs : list A).


(** A successful update replaces one matching document in place. *)
Lemma findOneAndUpdate_some p f docs d docs' :
  findOneAndUpdate p f docs = Some (d, docs') ->
  exists pre old post,
    docs = pre ++ old :: post /\ docs' = pre ++ f old :: post
    /\ d = f old /\ p old = true /\ (forall x, In x pre -> p x = false).
Proof.
  revert d docs'. induction docs as [| x rest IH]; intros d docs' H;
    cbn [findOneAndUpdate] in H; [discriminate |].
  destruct (p x) eqn:P.
  - injection H as <- <-. exists [], x, rest. repeat split; auto. intros ? [].
  - destruct (findOneAndUpdate p f rest) as [[d0 rest'] |] eqn:F; [| discriminate].
    injection H as <- <-.
    destruct (IH d0 rest' eq_refl) as (pre & old & post & -> & -> & -> & Po & Pre).
    exists (x :: pre), old, post. repeat split; auto.
    intros y [<- | Hy]; auto.
Qed.


Lemma findOneAndDelete_some p docs d docs' :
  findOneAndDelete p docs = Some (d, docs') ->
  exists pre post, docs = pre ++ d :: post /\ docs' = pre ++ post /\ p d = true.
Proof.
  revert d docs'. induction docs as [| x rest IH]; intros d docs' H;
    cbn [findOneAndDelete] in H; [discriminate |].
  destruct (p x) eqn:P.
  - injection H as <- <-. exists [], rest. auto.
  - destruct (findOneAndDelete p rest) as [[d0 rest'] |] eqn:F; [| discriminate].
    injection H as <- <-.
    destruct (IH d0 rest' eq_refl) as (pre & post & -> & -> & Pd).
    exists (x :: pre), post. auto.
Qed.

Lemma findOne_app_new p docs d :
  findOne p docs = None -> p d = true -> findOne p (docs ++ [d]) = Some d.
Proof.
  unfold findOne. induction docs as [| x rest IH]; cbn [List.find app]; intros N P.
  - rewrite P. reflexivity.
  - destruct (p x); [discriminate | auto].
Qed.

End StoreOps.

(** No owned record: the filter of the update and of the delete matches
    nothing. *)
Lemma noOwnedRecord_matches userId id st :
  noOwnedRecord userId id st ->
  forall t, In t (timeOffs st) -> matches id userId t = false.
Proof.
  intros H t Ht. unfold matches.
  destruct (String.eqb_spec (t_id t) id) as [E | E]; [| reflexivity].
  destruct (String.eqb_spec (t_userId t) userId) as [E' | E']; [| reflexivity].
  exfalso. exact (H t Ht E E').
Qed.

Lemma matches_owner id userId t : matches id userId t = true -> t_id t = id /\ t_userId t = userId.
Proof.
  unfold matches. intros H. apply andb_prop in H as [H1 H2].
  apply String.eqb_eq in H1, H2. auto.
Qed.

(** ** The time-off handlers in two steps: the checks, then the store *)

Lemma isDayOff_spec type : isDayOff type = true <-> type = JPrim (JStr "dayOff").
Proof.
  destruct type as [[| | b | n | s] | o | l]; cbn [isDayOff];
    try (split; [discriminate | discriminate]).
  destruct (String.eqb_spec s "dayOff") as [-> | N]; split; auto; try discriminate.
  intros [= E]. contradiction.
Qed.

(** Destructs the conditions of a handler in program order. *)
Ltac handler_cases :=
  repeat match goal with
         | |- context [if ?c then _ else _] =>
             let E := fresh "E" in destruct c eqn:E
         end.

Lemma createTimeOff_eq lp cs now newId userId type startDate endDate description st :
  createTimeOff lp cs now newId userId type startDate endDate description st
  = match timeOffCheck lp type startDate endDate with
    | inl r => (r, st)
    | inr fin =>
        match newTimeOff cs now newId userId type startDate fin description with
        | Some t =>
            (mkResponse 201 (TimeOffSaved "Time off request created successfully" t),
             mkStore (users st) (schedules st) (timeOffs st ++ [t]))
        | None => (json 500 "Server error", st)
        end
    end.
Proof. unfold createTimeOff, timeOffCheck. handler_cases; reflexivity. Qed.

Lemma updateTimeOff_eq lp cs uo userId id type startDate endDate description st :
  updateTimeOff lp cs uo userId id type startDate endDate description st
  = match timeOffCheck lp type startDate endDate with
    | inl r => (r, st)
    | inr fin =>
        match castUpdateValue cs uo type, castUpdateValue cs uo startDate,
              castUpdateValue cs uo fin, castUpdateValue cs uo description with
        | Some ty, Some s, Some e, Some d =>
            match castObjectId id with
            | Some oid =>
                if updateValid ty s e then
                  match findOneAndUpdate (matches oid userId) (setFields ty s e d)
                          (timeOffs st) with
                  | None => (json 404 "Time off request not found", st)
                  | Some (timeOff, docs) =>
                      (mkResponse 200
                         (TimeOffSaved "Time off request updated successfully" timeOff),
                       mkStore (users st) (schedules st) docs)
                  end
                else (json 500 "Server error", st)
            | None => (json 500 "Server error", st)
            end
        | _, _, _, _ => (json 500 "Server error", st)
        end
    end.
Proof.
  unfold updateTimeOff, timeOffCheck.
  destruct (negb (truthyVal type) || negb (truthyVal startDate)); [reflexivity |].
  destruct (negb (validateDateValue startDate)); [reflexivity |].
  destruct (isDayOff type); [reflexivity |].
  destruct (negb (truthyVal endDate)); [reflexivity |].
  destruct (negb (validateDateValue endDate)); [reflexivity |].
  destruct (dateGt lp (asPrim startDate) (asPrim endDate)); reflexivity.
Qed.

(** What [validateDateFormat] accepts is a non-empty string. *)
Lemma validateDateValue_str v :
  validateDateValue v = true ->
  exists s, v = JPrim (JStr s) /\ validateDateFormat (JStr s) = true /\ s <> "".
Proof.
  intros H. destruct v as [p | o | l]; cbn [validateDateValue] in H; try discriminate.
  destruct p as [| | b | n | s];
    try (revert H; unfold validateDateFormat; destruct (negb (truthy _)); discriminate).
  exists s. split; [reflexivity |]. split; [exact H |].
  intros ->. vm_compute in H. discriminate.
Qed.

Lemma validateDateValue_truthy v : validateDateValue v = true -> truthyVal v = true.
Proof.
  intros H. destruct (validateDateValue_str v H) as (s & -> & _ & N).
  cbn [truthyVal truthy]. destruct (String.eqb_spec s ""); [contradiction | reflexivity].
Qed.

Lemma dateGt_irrefl lp v : dateGt lp v v = false.
Proof. unfold dateGt. destruct (newDateOf lp v); [apply Z.ltb_irrefl | reflexivity]. Qed.

(** The checks passed: what is known of the body and of the end date that
    goes to the store. *)
Lemma timeOffCheck_inr lp type startDate endDate fin :
  timeOffCheck lp type startDate endDate = inr fin ->
  truthyVal type = true
  /\ validateDateValue startDate = true
  /\ fin = (if isDayOff type then startDate else endDate)
  /\ validateDateValue fin = true
  /\ dateGt lp (asPrim startDate) (asPrim fin) = false.
Proof.
  unfold timeOffCheck.
  destruct (truthyVal type); cbn [negb orb]; [| discriminate].
  destruct (truthyVal startDate); cbn [negb]; [| discriminate].
  destruct (validateDateValue startDate) eqn:Vs; cbn [negb]; [| discriminate].
  destruct (isDayOff type).
  - intros [= <-]. repeat split; auto. apply dateGt_irrefl.
  - destruct (truthyVal endDate); cbn [negb]; [| discriminate].
    destruct (validateDateValue endDate) eqn:Ve; cbn [negb]; [| discriminate].
    destruct (dateGt lp (asPrim startDate) (asPrim endDate)) eqn:G; [discriminate |].
    intros [= <-]. repeat split; auto.
Qed.


Lemma timeOffCheck_inl lp type startDate endDate r :
  timeOffCheck lp type startDate endDate = inl r -> status r = 400.
Proof.
  unfold timeOffCheck. handler_cases; intros [= <-]; reflexivity.
Qed.

(** A validated date is stored as the string the client sent. *)
Lemma castValue_date cs v :
  validateDateValue v = true ->
  exists s, v = JPrim (JStr s) /\ castValue cs v = Some (JStr s)
            /\ requiredString (JStr s) = true.
Proof.
  intros H. destruct (validateDateValue_str v H) as (s & -> & _ & N).
  exists s. split; [reflexivity |]. split; [reflexivity |].
  cbn [requiredString]. destruct (String.eqb_spec s ""); [contradiction | reflexivity].
Qed.

Lemma newTimeOff_some cs now newId userId type startDate fin description t :
  newTimeOff cs now newId userId type startDate fin description = Some t ->
  exists ty s e d,
    castValue cs type = Some ty /\ castValue cs startDate = Some s
    /\ castValue cs fin = Some e /\ castValue cs description = Some d
    /\ typeAccepted ty = true /\ isObjectId newId = true
    /\ t = mkTimeOff newId userId ty s e d "pending" now.
Proof.
  unfold newTimeOff.
  destruct (castValue cs type) as [ty |]; [| discriminate].
  destruct (castValue cs startDate) as [s |]; [| discriminate].
  destruct (castValue cs fin) as [e |]; [| discriminate].
  destruct (castValue cs description) as [d |]; [| discriminate].
  destruct (typeAccepted ty) eqn:A; cbn [andb]; [| discriminate].
  destruct (requiredString s); cbn [andb]; [| discriminate].
  destruct (requiredString e); cbn [andb]; [| discriminate].
  destruct (isObjectId newId) eqn:I; [| discriminate].
  intros [= <-]. exists ty, s, e, d. repeat split; auto.
Qed.

(** Every outcome of [createTimeOff]: the store is unchanged, or one
    record is appended. *)
Lemma createTimeOff_outcome lp cs now newId userId type startDate endDate description st :
  let r := createTimeOff lp cs now newId userId type startDate endDate description st in
  (snd r = st /\ status (fst r) <> 201)
  \/ (exists fin t,
        timeOffCheck lp type startDate endDate = inr fin
        /\ newTimeOff cs now newId userId type startDate fin description = Some t
        /\ r = (mkResponse 201 (TimeOffSaved "Time off request created successfully" t),
                mkStore (users st) (schedules st) (timeOffs st ++ [t]))).
Proof.
  cbv zeta. rewrite createTimeOff_eq.
  destruct (timeOffCheck lp type startDate endDate) as [r | fin] eqn:C.
  - left. split; [reflexivity |]. cbn [fst]. rewrite (timeOffCheck_inl _ _ _ _ _ C). discriminate.
  - destruct (newTimeOff cs now newId userId type startDate fin description) as [t |] eqn:N.
    + right. exists fin, t. auto.
    + left. split; [reflexivity | discriminate].
Qed.

(** An identifier in its written form is cast to itself. *)
Lemma castObjectId_written s : isObjectId s = true -> castObjectId s = Some s.
Proof.
  unfold isObjectId. destruct (castObjectId s) as [o |]; [| discriminate].
  intros H. apply String.eqb_eq in H. subst o. reflexivity.
Qed.

(** Every outcome of [updateTimeOff]: the store is unchanged, or the
    first record with the id and the caller as owner is replaced by the
    record with the fields of the update set. *)
Lemma updateTimeOff_outcome lp cs uo userId id type startDate endDate description st :
  let r := updateTimeOff lp cs uo userId id type startDate endDate description st in
  (snd r = st /\ status (fst r) <> 200)
  \/ (exists fin ty s e d oid pre old post,
        timeOffCheck lp type startDate endDate = inr fin
        /\ castUpdateValue cs uo type = Some ty
        /\ castUpdateValue cs uo startDate = Some s
        /\ castUpdateValue cs uo fin = Some e
        /\ castUpdateValue cs uo description = Some d
        /\ castObjectId id = Some oid /\ updateValid ty s e = true
        /\ timeOffs st = pre ++ old :: post
        /\ matches oid userId old = true
        /\ (forall x, In x pre -> matches oid userId x = false)
        /\ r = (mkResponse 200 (TimeOffSaved "Time off request updated successfully"
                  (setFields ty s e d old)),
                mkStore (users st) (schedules st)
                  (pre ++ setFields ty s e d old :: post))).
Proof.
  cbv zeta. rewrite updateTimeOff_eq.
  destruct (timeOffCheck lp type startDate endDate) as [r | fin] eqn:C.
  { left. split; [reflexivity |]. cbn [fst]. rewrite (timeOffCheck_inl _ _ _ _ _ C). discriminate. }
  destruct (castUpdateValue cs uo type) as [ty |] eqn:Cty;
    [| left; split; [reflexivity | discriminate]].
  destruct (castUpdateValue cs uo startDate) as [s |] eqn:Cs;
    [| left; split; [reflexivity | discriminate]].
  destruct (castUpdateValue cs uo fin) as [e |] eqn:Ce;
    [| left; split; [reflexivity | discriminate]].
  destruct (castUpdateValue cs uo description) as [d |] eqn:Cd;
    [| left; split; [reflexivity | discriminate]].
  destruct (castObjectId id) as [oid |] eqn:I;
    [| left; split; [reflexivity | discriminate]].
  destruct (updateValid ty s e) eqn:V; [| left; split; [reflexivity | discriminate]].
  destruct (findOneAndUpdate (matches oid userId) (setFields ty s e d) (timeOffs st))
    as [[t l'] |] eqn:F; [| left; split; [reflexivity | discriminate]].
  apply findOneAndUpdate_some in F as (pre & old & post & Hl & -> & -> & Po & Pre).
  right. exists fin, ty, s, e, d, oid, pre, old, post. repeat split; auto.
Qed.

(** The cast of a validated date in an update is the string itself. *)
Lemma castUpdateValue_date cs uo v :
  validateDateValue v = true ->
  exists s, v = JPrim (JStr s) /\ castUpdateValue cs uo v = Some (JStr s)
            /\ requiredString (JStr s) = true.
Proof.
  intros H. destruct (castValue_date cs v H) as (s & -> & E & R).
  exists s. auto.
Qed.

(* ===================================================================== *)
(** ** C2: a day off ends on the day it starts *)
(* ===================================================================== *)

(** With the type given as the string "dayOff" the create handler stores
    the start date as end date, whatever end date the client sent. *)
Lemma createTimeOff_dayOff_string lp cs now newId userId startDate endDate description st :
  let r := createTimeOff lp cs now newId userId (JPrim (JStr "dayOff")) startDate endDate
             description st in
  status (fst r) = 201 ->
  exists t, body (fst r) = TimeOffSaved "Time off request created successfully" t
            /\ timeOffs (snd r) = timeOffs st ++ [t]
            /\ t_type t = JStr "dayOff"
            /\ startDate = JPrim (t_startDate t) /\ t_endDate t = t_startDate t.
Proof.
  cbv zeta. intros H.
  destruct (createTimeOff_outcome lp cs now newId userId (JPrim (JStr "dayOff")) startDate
              endDate description st) as [[_ N] | (fin & t & C & T & E)]; [contradiction |].
  rewrite E. cbn [fst snd body timeOffs]. exists t. split; [reflexivity |].
  split; [reflexivity |].
  apply timeOffCheck_inr in C as (_ & Vs & Hfin & _ & _).
  cbn [isDayOff] in Hfin. change (String.eqb "dayOff" "dayOff") with true in Hfin. subst fin.
  apply newTimeOff_some in T as (ty & s & e & d & Cty & Cs & Ce & _ & _ & _ & ->).
  destruct (castValue_date cs startDate Vs) as (x & -> & Cx & _).
  rewrite Cx in Cs, Ce. injection Cs as <-. injection Ce as <-.
  cbn [castValue castPrim castWith] in Cty. injection Cty as <-.
  cbn [t_type t_startDate t_endDate]. auto.
Qed.

(** C2: every stored time-off record of type "dayOff" is to end on the day
    it starts, the handlers forcing the end date.  The create handler
    misses a case: the type given as the object [{"_id": "dayOff"}] is
    not the string the handler compares with, so the end date of the
    client is kept, and the [String] path of the schema then casts the
    object to "dayOff".  On a store without records the request with
    start date 2024-05-01 and end date 2024-05-03 is answered 201, and
    the store then holds a record of type "dayOff" that ends on
    2024-05-03. *)
Theorem dayOff_object_type_keeps_end_date (lp : string -> option Z) (cs : jsprim -> string) :
  let t := mkTimeOff "650000000000000000000001" "640000000000000000000001" (JStr "dayOff") (JStr "2024-05-01")
             (JStr "2024-05-03") JUndefined "pending" 0 in
  createTimeOff lp cs 0 "650000000000000000000001" "640000000000000000000001" (JObj (<["_id" := JStr "dayOff"]> ∅))
    (JPrim (JStr "2024-05-01")) (JPrim (JStr "2024-05-03")) (JPrim JUndefined)
    (mkStore [] [] [])
  = (mkResponse 201 (TimeOffSaved "Time off request created successfully" t),
     mkStore [] [] [t])
  /\ dayOffSingleDay (mkStore [] [] [])
  /\ ~ dayOffSingleDay (mkStore [] [] [t]).
Proof.
  cbv zeta. split; [vm_compute; reflexivity |]. split.
  - intros t [].
  - intros Inv. specialize (Inv _ (or_introl eq_refl) eq_refl). discriminate Inv.
Qed.

(* ===================================================================== *)
(** ** C5: updating or deleting a record that is not the caller's *)
(* ===================================================================== *)




(* ===================================================================== *)
(** ** C9: what a successful update leaves alone *)
(* ===================================================================== *)

(** C9, as stated, fails for the description: an update that gives no
    description is answered 200 and keeps the stored description. *)
Lemma update_without_description_keeps_it :
  updateTimeOff (fun _ => None) printPrim (fun _ => None) "640000000000000000000001" "650000000000000000000001"
    (JPrim (JStr "sickLeave")) (JPrim (JStr "2024-06-01")) (JPrim (JStr "2024-06-02"))
    (JPrim JUndefined)
    (mkStore [] []
       [mkTimeOff "650000000000000000000001" "640000000000000000000001" (JStr "vacation") (JStr "2024-05-01") (JStr "2024-05-03")
          (JStr "trip") "pending" 5])
  = (mkResponse 200
       (TimeOffSaved "Time off request updated successfully"
          (mkTimeOff "650000000000000000000001" "640000000000000000000001" (JStr "sickLeave") (JStr "2024-06-01")
             (JStr "2024-06-02") (JStr "trip") "pending" 5)),
     mkStore [] []
       [mkTimeOff "650000000000000000000001" "640000000000000000000001" (JStr "sickLeave") (JStr "2024-06-01") (JStr "2024-06-02")
          (JStr "trip") "pending" 5]).
Proof. vm_compute. reflexivity. Qed.

(** C9 (amended): a successful time-off update replaces, in one stored
    record of the caller with the given id, the start date and the end
    date by those of the request (the end date by the start date when the
    type is the string "dayOff"), the type by the cast of the type of the
    request, and the description by the cast of the description of the
    request when the request gives one; without a description the stored
    one stays.  The status, the owner, the creation time and the id of
    that record, every other record, the users and the schedules are
    unchanged. *)
Theorem update_replaces_given_fields (lp : string -> option Z) (cs : jsprim -> string)
    (uo : gmap string jsprim -> option jsprim) (userId id : ObjectId)
    (type startDate endDate description : jsval) (st : Store) :
  status (fst (updateTimeOff lp cs uo userId id type startDate endDate description st))
  = 200 ->
  exists pre old new post ty d,
    timeOffs st = pre ++ old :: post
    /\ updateTimeOff lp cs uo userId id type startDate endDate description st
       = (mkResponse 200 (TimeOffSaved "Time off request updated successfully" new),
          mkStore (users st) (schedules st) (pre ++ new :: post))
    /\ castObjectId id = Some (t_id old) /\ t_userId old = userId
    /\ castUpdateValue cs uo type = Some ty
    /\ t_type new = keep ty (t_type old)
    /\ (forall s, type = JPrim (JStr s) -> t_type new = JStr s)
    /\ startDate = JPrim (t_startDate new)
    /\ (if isDayOff type then startDate else endDate) = JPrim (t_endDate new)
    /\ castUpdateValue cs uo description = Some d
    /\ t_description new = keep d (t_description old)
    /\ (forall s, description = JPrim (JStr s) -> t_description new = JStr s)
    /\ (description = JPrim JUndefined -> t_description new = t_description old)
    /\ t_status new = t_status old
    /\ t_userId new = t_userId old
    /\ t_createdAt new = t_createdAt old
    /\ t_id new = t_id old.
Proof.
  intros H.
  destruct (updateTimeOff_outcome lp cs uo userId id type startDate endDate description st)
    as [[_ N] | (fin & ty & s & e & d & oid & pre & old & post & C & Cty & Cs & Ce & Cd & I
                 & V & Hl & Po & _ & E)]; [contradiction |].
  apply timeOffCheck_inr in C as (Ty & Vs & Hfin & Vf & _).
  destruct (castUpdateValue_date cs uo startDate Vs) as (x & Ex & Cx & _).
  destruct (castUpdateValue_date cs uo fin Vf) as (y & Ey & Cy & _).
  rewrite Cx in Cs. rewrite Cy in Ce. injection Cs as <-. injection Ce as <-.
  destruct (matches_owner _ _ _ Po) as [Hid Hu]. rewrite <- Hid in I.
  exists pre, old, (setFields ty (JStr x) (JStr y) d old), post, ty, d.
  cbn [setFields t_id t_userId t_type t_startDate t_endDate t_description t_status
       t_createdAt keep].
  repeat match goal with |- _ /\ _ => split end; auto.
  - intros s ->. cbn [castUpdateValue castValue castPrim castWith] in Cty.
    injection Cty as <-. cbn [truthyVal truthy] in Ty.
    destruct s; [discriminate | reflexivity].
  - rewrite <- Hfin. exact Ey.
  - intros s ->. cbn [castUpdateValue castValue castPrim castWith] in Cd.
    injection Cd as <-. unfold keep. reflexivity.
  - intros ->. cbn [castUpdateValue castValue castPrim] in Cd. injection Cd as <-.
    reflexivity.
Qed.

Lemma update_replaces_given_fields_witness :
  exists pre old new post,
    [mkTimeOff "650000000000000000000001" "640000000000000000000001" (JStr "vacation") (JStr "2024-05-01") (JStr "2024-05-03")
       JNull "approved" 5] = pre ++ old :: post
    /\ t_status new = "approved" /\ t_type new = JStr "sickLeave"
    /\ t_description new = JStr "flu".
Proof.
  destruct (update_replaces_given_fields (fun _ => None) printPrim (fun _ => None)
              "640000000000000000000001" "650000000000000000000001" (JPrim (JStr "sickLeave"))
              (JPrim (JStr "2024-06-01")) (JPrim (JStr "2024-06-02")) (JPrim (JStr "flu"))
              (mkStore [] []
                 [mkTimeOff "650000000000000000000001" "640000000000000000000001" (JStr "vacation") (JStr "2024-05-01")
                    (JStr "2024-05-03") JNull "approved" 5]))
    as (pre & old & new & post & ty & d & Hl & _ & _ & _ & _ & _ & Ht & _ & _ & _ & _ & Hd
        & _ & Hs & _).
  - vm_compute. reflexivity.
  - exists pre, old, new, post. cbn [timeOffs] in Hl.
    split; [exact Hl |]. split; [| split; [exact (Ht _ eq_refl) | exact (Hd _ eq_refl)]].
    rewrite Hs. destruct pre as [| x pre].
    + injection Hl as <- _. reflexivity.
    + injection Hl as _ Hl. destruct pre; discriminate.
Defined.

(* ===================================================================== *)
(** ** C3: the end date may not precede the start date *)
(* ===================================================================== *)

Lemma daysInMonth_min y m : 28 <= daysInMonth y m.
Proof.
  unfold daysInMonth.
  repeat match goal with
         | |- context [if ?c then _ else _] => destruct c
         end; lia.
Qed.

Lemma monthStart_mono_nat y a (k : nat) :
  0 <= a -> a + Z.of_nat k <= 12 ->
  monthStart (isLeap y) a <= monthStart (isLeap y) (a + Z.of_nat k).
Proof.
  intros Ha. induction k as [| k IH]; intros Hk.
  - rewrite Z.add_0_r. lia.
  - destruct (monthStart_diff y (a + Z.of_nat k) ltac:(lia)) as [D _].
    pose proof (daysInMonth_min y (a + Z.of_nat k + 1)).
    replace (a + Z.of_nat (S k)) with (a + Z.of_nat k + 1) by lia.
    specialize (IH ltac:(lia)). lia.
Qed.

Lemma monthStart_mono y a b :
  0 <= a <= b -> b <= 12 -> monthStart (isLeap y) a <= monthStart (isLeap y) b.
Proof.
  intros H Hb. replace b with (a + Z.of_nat (Z.to_nat (b - a))) by lia.
  apply monthStart_mono_nat; lia.
Qed.

(** The day number of a date of the calendar. *)
Lemma MakeDay_real y m d :
  realDate y m d = true ->
  MakeDay y (m - 1) d = DayFromYear y + monthStart (isLeap y) (m - 1) + d - 1
  /\ 1 <= m <= 12
  /\ 1 <= d
  /\ monthStart (isLeap y) (m - 1) + d <= monthStart (isLeap y) m
  /\ monthStart (isLeap y) m <= DaysInYear y.
Proof.
  unfold realDate. rewrite !andb_true_iff, !Z.leb_le. intros [[[M1 M2] D1] D2].
  destruct (monthStart_diff y (m - 1) ltac:(lia)) as [D [_ D3]].
  replace (m - 1 + 1) with m in * by lia.
  unfold MakeDay. rewrite (Z.div_small (m - 1) 12), (Z.mod_small (m - 1) 12), Z.add_0_r by lia.
  repeat split; lia.
Qed.

(** Day numbers follow the calendar order. *)
Lemma MakeDay_earlier y1 m1 d1 y2 m2 d2 :
  realDate y1 m1 d1 = true -> realDate y2 m2 d2 = true ->
  earlier (y1, m1, d1) (y2, m2, d2) ->
  MakeDay y1 (m1 - 1) d1 < MakeDay y2 (m2 - 1) d2.
Proof.
  intros R1 R2 E.
  destruct (MakeDay_real _ _ _ R1) as (-> & Ma & Da & Ua & Ya).
  destruct (MakeDay_real _ _ _ R2) as (-> & Mb & Db & Ub & Yb).
  pose proof (monthStart_nonneg (isLeap y2) (m2 - 1)).
  cbn [earlier] in E. destruct E as [Y | [-> [M | [-> D]]]].
  - pose proof (DayFromYear_mono (y1 + 1) y2 ltac:(lia)) as Mo.
    rewrite DayFromYear_step in Mo. lia.
  - pose proof (monthStart_mono y2 m1 (m2 - 1) ltac:(lia) ltac:(lia)). lia.
  - lia.
Qed.

Lemma MakeDay_order y1 m1 d1 y2 m2 d2 :
  realDate y1 m1 d1 = true -> realDate y2 m2 d2 = true ->
  (MakeDay y1 (m1 - 1) d1 < MakeDay y2 (m2 - 1) d2
   <-> earlier (y1, m1, d1) (y2, m2, d2)).
Proof.
  intros R1 R2. split; [| apply MakeDay_earlier; assumption].
  intros L.
  assert (T : earlier (y1, m1, d1) (y2, m2, d2)
              \/ (y1 = y2 /\ m1 = m2 /\ d1 = d2)
              \/ earlier (y2, m2, d2) (y1, m1, d1)) by (cbn [earlier]; lia).
  destruct T as [T | [(-> & -> & ->) | T]]; [exact T | lia |].
  pose proof (MakeDay_earlier _ _ _ _ _ _ R2 R1 T). lia.
Qed.

Lemma append_empty_r s : s +:+ "" = s.
Proof. induction s as [| c r IH]; app; [reflexivity | f_equal; exact IH]. Qed.

(** A string of the shape YYYY-MM-DD has no white space to trim. *)
Lemma trim_of_readYMD s y m d : readYMD s = Some (y, m, d) -> trim s = s.
Proof.
  intros R. invert_readYMD R s.
  apply code_dash in E3, E6. subst c3 c6.
  match goal with
  | |- trim (String ?c ?r) = _ =>
      change (String c r) with ("" +:+ String c r) at 1;
      rewrite <- (append_empty_r (String c r)) at 1;
      apply (trim_sandwich "" "" c r); [| reflexivity | reflexivity]
  end.
  cbn [noSpace].
  rewrite (isDigit_not_space _ E), (isDigit_not_space _ E0), (isDigit_not_space _ E1),
    (isDigit_not_space _ E2), (isDigit_not_space _ E4), (isDigit_not_space _ E5),
    (isDigit_not_space _ E7), (isDigit_not_space _ E8).
  reflexivity.
Qed.

(** An accepted string of the shape YYYY-MM-DD is a real date, and
    [new Date] reads it as that day, UTC. *)
Lemma accepted_iso lp s y m d :
  readYMD s = Some (y, m, d) -> validateDateFormat (JStr s) = true ->
  realDate y m d = true
  /\ newDateOf lp (JStr s) = Some (msPerDay * MakeDay y (m - 1) d).
Proof.
  intros R V. rewrite validateDateFormat_str, (trim_of_readYMD _ _ _ _ R), R in V.
  apply andb_prop in V as [_ Re]. split; [exact Re |].
  cbn [newDateOf]. unfold parse, parseIsoDate.
  change isoDateOnly with dateRegex. rewrite test_dateRegex_readYMD, R.
  rewrite <- (append_empty_r s) at 1. rewrite <- (append_nil (s +:+ "")).
  rewrite (parts_of_padded "" "" s y m d eq_refl eq_refl R).
  unfold realDate in Re. rewrite Re. reflexivity.
Qed.

(** On two accepted strings of the shape YYYY-MM-DD, the comparison of
    the handlers is the calendar order. *)
Lemma dateGt_iso lp s e ys ms ds ye me de :
  readYMD s = Some (ys, ms, ds) -> readYMD e = Some (ye, me, de) ->
  validateDateFormat (JStr s) = true -> validateDateFormat (JStr e) = true ->
  (dateGt lp (JStr s) (JStr e) = true <-> earlier (ye, me, de) (ys, ms, ds)).
Proof.
  intros Rs Re Vs Ve.
  destruct (accepted_iso lp s ys ms ds Rs Vs) as [RDs Ps].
  destruct (accepted_iso lp e ye me de Re Ve) as [RDe Pe].
  unfold dateGt. rewrite Ps, Pe. rewrite Z.ltb_lt.
  rewrite <- (MakeDay_order ye me de ys ms ds RDe RDs). unfold msPerDay. lia.
Qed.

(** Destructs what a handler does after the checks, in program order. *)
Ltac store_cases :=
  repeat match goal with
         | |- context [match castUpdateValue ?a ?b ?c with _ => _ end] =>
             destruct (castUpdateValue a b c)
         | |- context [match newTimeOff ?a ?b ?c ?d ?e ?f ?g ?h with _ => _ end] =>
             destruct (newTimeOff a b c d e f g h)
         | |- context [match castObjectId ?a with _ => _ end] =>
             destruct (castObjectId a)
         | |- context [if ?c then _ else _] => destruct c
         | |- context [match findOneAndUpdate ?p ?f ?l with _ => _ end] =>
             destruct (findOneAndUpdate p f l) as [[? ?] |]
         end.

(** The checks once type and dates have passed the earlier ones. *)
Lemma timeOffCheck_ranged lp type startDate endDate :
  truthyVal type = true -> isDayOff type = false ->
  validateDateValue startDate = true -> validateDateValue endDate = true ->
  timeOffCheck lp type startDate endDate
  = if dateGt lp (asPrim startDate) (asPrim endDate)
    then inl (json 400 "End date must be after start date")
    else inr endDate.
Proof.
  intros Ty D Vs Ve. unfold timeOffCheck.
  rewrite Ty, D, (validateDateValue_truthy _ Vs), Vs, (validateDateValue_truthy _ Ve), Ve.
  reflexivity.
Qed.

(** C3, as stated, fails on valid dates with white space around them:
    [validateDateFormat] accepts them, and [new Date] reads such a string
    by the rules of the engine, not as the date-only form.  With an
    engine that reads it as local midnight, five hours behind UTC, a
    vacation from " 2024-05-05" to "2024-05-05", the same day, is
    answered 400 "End date must be after start date". *)
Lemma padded_same_day_rejected :
  validateDateFormat (JStr " 2024-05-05") = true
  /\ validateDateFormat (JStr "2024-05-05") = true
  /\ readYMD (trim " 2024-05-05") = readYMD (trim "2024-05-05")
  /\ createTimeOff (localMidnight 18000000) printPrim 0 "650000000000000000000001" "640000000000000000000001"
       (JPrim (JStr "vacation")) (JPrim (JStr " 2024-05-05")) (JPrim (JStr "2024-05-05"))
       (JPrim JUndefined) (mkStore [] [] [])
     = (json 400 "End date must be after start date", mkStore [] [] [])
  /\ updateTimeOff (localMidnight 18000000) printPrim (fun _ => None) "640000000000000000000001" "650000000000000000000001"
       (JPrim (JStr "vacation")) (JPrim (JStr " 2024-05-05")) (JPrim (JStr "2024-05-05"))
       (JPrim JUndefined) (mkStore [] [] [])
     = (json 400 "End date must be after start date", mkStore [] [] []).
Proof. repeat split; vm_compute; reflexivity. Qed.

(** C3 (amended): for a create or an update request whose type is given
    and is not the string "dayOff" and whose start and end date are
    accepted strings of the exact shape YYYY-MM-DD, without white space
    around them, the answer is 400 "End date must be after start date"
    exactly when the end date is an earlier calendar date than the start
    date; an end date equal to or later than the start date is not
    answered 400, and when the type is cast to one of the four kinds the
    record is created with that end date. *)
Theorem end_before_start_rejected (lp : string -> option Z) (cs : jsprim -> string)
    (uo : gmap string jsprim -> option jsprim) (type : jsval)
    (s e : string) (ys ms ds ye me de : Z) :
  truthyVal type = true -> isDayOff type = false ->
  readYMD s = Some (ys, ms, ds) -> readYMD e = Some (ye, me, de) ->
  validateDateFormat (JStr s) = true -> validateDateFormat (JStr e) = true ->
  (forall now newId userId description st,
     (fst (createTimeOff lp cs now newId userId type (JPrim (JStr s)) (JPrim (JStr e))
             description st)
      = json 400 "End date must be after start date"
      <-> earlier (ye, me, de) (ys, ms, ds))
     /\ (~ earlier (ye, me, de) (ys, ms, ds) ->
         status (fst (createTimeOff lp cs now newId userId type (JPrim (JStr s))
                        (JPrim (JStr e)) description st)) <> 400
         /\ (forall ty d,
               castValue cs type = Some ty -> typeAccepted ty = true ->
               castValue cs description = Some d -> isObjectId newId = true ->
               createTimeOff lp cs now newId userId type (JPrim (JStr s)) (JPrim (JStr e))
                 description st
               = (mkResponse 201
                    (TimeOffSaved "Time off request created successfully"
                       (mkTimeOff newId userId ty (JStr s) (JStr e) d "pending" now)),
                  mkStore (users st) (schedules st)
                    (timeOffs st ++ [mkTimeOff newId userId ty (JStr s) (JStr e) d
                                       "pending" now])))))
  /\ (forall userId id description st,
        (fst (updateTimeOff lp cs uo userId id type (JPrim (JStr s)) (JPrim (JStr e))
                description st)
         = json 400 "End date must be after start date"
         <-> earlier (ye, me, de) (ys, ms, ds))
        /\ (~ earlier (ye, me, de) (ys, ms, ds) ->
            status (fst (updateTimeOff lp cs uo userId id type (JPrim (JStr s))
                           (JPrim (JStr e)) description st)) <> 400)).
Proof.
  intros Ty D Rs Re Vs Ve.
  pose proof (dateGt_iso lp s e ys ms ds ye me de Rs Re Vs Ve) as G.
  pose proof (timeOffCheck_ranged lp type (JPrim (JStr s)) (JPrim (JStr e)) Ty D Vs Ve) as C.
  cbn [asPrim] in C.
  assert (Ns : s <> "") by (intros ->; discriminate Rs).
  assert (Ne : e <> "") by (intros ->; discriminate Re).
  split.
  - intros now newId userId description st. rewrite createTimeOff_eq, C.
    destruct (dateGt lp (JStr s) (JStr e)).
    + split; [split; [intros _; apply G; reflexivity | reflexivity] |].
      intros N. exfalso. apply N, G. reflexivity.
    + assert (N : ~ earlier (ye, me, de) (ys, ms, ds))
        by (intros X; apply G in X; discriminate).
      split.
      * split; [| contradiction]. store_cases; discriminate.
      * intros _. split; [store_cases; discriminate |].
        intros ty d Cty Acc Cd I. unfold newTimeOff.
        rewrite Cty, Cd. cbn [castValue castPrim castWith requiredString].
        rewrite Acc, I.
        destruct (String.eqb_spec s ""); [contradiction |].
        destruct (String.eqb_spec e ""); [contradiction |]. reflexivity.
  - intros userId id description st. rewrite updateTimeOff_eq, C.
    destruct (dateGt lp (JStr s) (JStr e)).
    + split; [split; [intros _; apply G; reflexivity | reflexivity] |].
      intros N. exfalso. apply N, G. reflexivity.
    + assert (N : ~ earlier (ye, me, de) (ys, ms, ds))
        by (intros X; apply G in X; discriminate).
      split; [split; [| contradiction] | intros _]; store_cases; discriminate.
Qed.

Lemma end_before_start_rejected_witness :
  fst (createTimeOff (fun _ => None) printPrim 0 "650000000000000000000001" "640000000000000000000001" (JPrim (JStr "vacation"))
         (JPrim (JStr "2024-05-10")) (JPrim (JStr "2024-05-05")) (JPrim JUndefined)
         (mkStore [] [] []))
  = json 400 "End date must be after start date".
Proof.
  refine (proj2 (proj1 (proj1 (end_before_start_rejected (fun _ => None) printPrim
            (fun _ => None) (JPrim (JStr "vacation"))
            "2024-05-10" "2024-05-05" 2024 5 10 2024 5 5 _ _ _ _ _ _) _ _ _ _ _)) _);
    try reflexivity.
  cbn [earlier]. lia.
Defined.

(* ===================================================================== *)
(** ** C6: the schedule is created on first read *)
(* ===================================================================== *)

Lemma ownedBy_default userId : ownedBy userId (defaultSchedule userId) = true.
Proof.
  unfold ownedBy, defaultSchedule. rewrite lookup_insert_eq. apply String.eqb_refl.
Qed.

Lemma defaultSchedule_days userId day :
  In day days -> defaultSchedule userId !! day = Some (slot "09:00" "17:30").
Proof.
  unfold days, defaultSchedule. intros H.
  repeat (destruct H as [<- | H];
          [ repeat (rewrite lookup_insert_ne by discriminate);
            apply lookup_insert_eq | ]).
  destruct H.
Qed.

(** C6: for a user without a stored schedule, the fetch answers 200 with
    a schedule whose seven weekdays are 09:00 to 17:30 and appends that
    document to the store; the fetch that follows answers with the same
    document and leaves the store as it is. *)
Theorem schedule_created_on_first_fetch (userId : ObjectId) (st : Store) :
  findOne (ownedBy userId) (schedules st) = None ->
  getSchedule userId st
  = (mkResponse 200 (ScheduleDoc (defaultSchedule userId)),
     mkStore (users st) (schedules st ++ [defaultSchedule userId]) (timeOffs st))
  /\ (forall day, In day days ->
        getProp (default (JPrim JUndefined) (defaultSchedule userId !! day)) "startTime"
        = JStr "09:00"
        /\ getProp (default (JPrim JUndefined) (defaultSchedule userId !! day)) "endTime"
           = JStr "17:30")
  /\ getSchedule userId (snd (getSchedule userId st))
     = (fst (getSchedule userId st), snd (getSchedule userId st)).
Proof.
  intros N.
  assert (E : getSchedule userId st
              = (mkResponse 200 (ScheduleDoc (defaultSchedule userId)),
                 mkStore (users st) (schedules st ++ [defaultSchedule userId])
                   (timeOffs st))).
  { unfold getSchedule. rewrite N. reflexivity. }
  split; [exact E | split].
  - intros day Hd. rewrite (defaultSchedule_days userId day Hd). split; reflexivity.
  - rewrite E. cbn [fst snd]. unfold getSchedule at 1. cbn [schedules].
    rewrite (findOne_app_new _ _ _ N (ownedBy_default userId)). reflexivity.
Qed.

Lemma schedule_created_on_first_fetch_witness :
  getSchedule "u1" (mkStore [] [defaultSchedule "u0"] [])
  = (mkResponse 200 (ScheduleDoc (defaultSchedule "u1")),
     mkStore [] [defaultSchedule "u0"; defaultSchedule "u1"] []).
Proof.
  refine (proj1 (schedule_created_on_first_fetch "u1"
                   (mkStore [] [defaultSchedule "u0"] []) _)).
  unfold findOne. cbn [schedules List.find].
  unfold ownedBy, defaultSchedule. rewrite lookup_insert_eq. reflexivity.
Defined.

(* ===================================================================== *)
(** ** C7: validation of a schedule update *)
(* ===================================================================== *)




Lemma findOne_none_all {A : Type} (p : A -> bool) (docs : list A) :
  findOne p docs = None -> forall d, In d docs -> p d = false.
Proof. unfold findOne. intros H d Hd. exact (List.find_none p docs H d Hd). Qed.

(** *** The cast of the update document *)

Lemma userId_not_day : ~ In "userId" days.
Proof. unfold days. cbn [In]. intros H. repeat destruct H as [H | H]; discriminate || exact H. Qed.






(** The fields of the cast weekdays: those of the body at the names of
    the list, cast; no other. *)
Lemma castDays_lookup cs co upd ds m :
  castDays cs co upd ds = Some m ->
  (forall k, In k ds ->
             m !! k = match upd !! k with
                      | Some v => castWeekday cs co k v
                      | None => None
                      end)
  /\ (forall k, ~ In k ds -> m !! k = None).
Proof.
  revert m. induction ds as [| d rest IH]; intros m H; cbn [castDays] in H.
  - injection H as <-. split; [intros k [] | intros k _; apply lookup_empty].
  - destruct (castDays cs co upd rest) as [m' |] eqn:R; [| discriminate].
    destruct (IH m' eq_refl) as [I1 I2].
    destruct (upd !! d) as [v |] eqn:Hv.
    + destruct (castWeekday cs co d v) as [w |] eqn:Hw; [| discriminate].
      injection H as <-. split.
      * intros k Hk. destruct (String.eqb_spec k d) as [-> | N].
        -- rewrite lookup_insert_eq, Hv, Hw. reflexivity.
        -- rewrite lookup_insert_ne by congruence. apply I1.
           destruct Hk as [E | Hk]; [congruence | exact Hk].
      * intros k Hk. rewrite lookup_insert_ne; [apply I2 |];
          intros E; apply Hk; [right; exact E | left; exact E].
    + injection H as <-. split.
      * intros k Hk. destruct (String.eqb_spec k d) as [-> | N].
        -- rewrite Hv. destruct (in_dec String.string_dec d rest) as [Y | Y].
           ++ rewrite (I1 d Y), Hv. reflexivity.
           ++ apply I2. exact Y.
        -- apply I1. destruct Hk as [E | Hk]; [congruence | exact Hk].
      * intros k Hk. apply I2. intros E. apply Hk. right. exact E.
Qed.

(** The fields of the cast update document. *)
Lemma castScheduleUpdate_lookup cs co upd update :
  castScheduleUpdate cs co upd = Some update ->
  (forall k, In k days ->
             update !! k = match upd !! k with
                           | Some v => castWeekday cs co k v
                           | None => None
                           end)
  /\ update !! "userId" = match upd !! "userId" with
                          | Some v => castOwner co v
                          | None => None
                          end
  /\ (forall k, ~ In k ("userId" :: days) -> update !! k = None).
Proof.
  unfold castScheduleUpdate.
  destruct (castDays cs co upd days) as [m |] eqn:D; [| discriminate].
  destruct (castDays_lookup cs co upd days m D) as [I1 I2].
  pose proof userId_not_day as U.
  destruct (upd !! "userId") as [v |] eqn:Hu.
  - destruct (castOwner co v) as [w |] eqn:Hw; [| discriminate].
    intros [= <-]. split; [| split].
    + intros k Hk. rewrite lookup_insert_ne; [apply I1; exact Hk |].
      intros <-. contradiction.
    + apply lookup_insert_eq.
    + intros k Hk. rewrite lookup_insert_ne; [apply I2 |];
        intros E; apply Hk; [right; exact E | left; exact E].
  - intros [= <-]. split; [exact I1 | split].
    + apply I2. exact U.
    + intros k Hk. apply I2. intros E. apply Hk. right. exact E.
Qed.





(* ===================================================================== *)
(** ** C8: the two login failures look the same *)
(* ===================================================================== *)

Lemma findOne_none_intro {A : Type} (p : A -> bool) (docs : list A) :
  (forall d, In d docs -> p d = false) -> findOne p docs = None.
Proof.
  unfold findOne. induction docs as [| x rest IH]; intros H; cbn [List.find]; [reflexivity |].
  rewrite (H x (or_introl eq_refl)). apply IH. intros d Hd. apply H. right. exact Hd.
Qed.

Lemma findOne_some {A : Type} (p : A -> bool) (docs : list A) (d : A) :
  findOne p docs = Some d -> In d docs /\ p d = true.
Proof. unfold findOne. apply List.find_some. Qed.

Lemma truthy_nonempty s : s <> "" -> truthy (JStr s) = true.
Proof.
  intros H. cbn [truthy]. destruct (String.eqb_spec s ""); [contradiction | reflexivity].
Qed.

(** With a password that is a string the two failures look the same: a
    login with a non-empty username and a non-empty string password is
    answered 400 "Invalid credentials" when no user has the username, and
    also when users with the username exist and the password matches none
    of their hashes. *)
Lemma login_failures_same_for_strings
    (cs : jsprim -> string) (bcryptCompare : string -> string -> bool)
    (mac : string -> claims -> string)
    (secret : string) (now1 now2 : Z) (st1 st2 : Store)
    (username1 username2 : jsprim) (password1 password2 : string) :
  truthy username1 = true -> password1 <> "" ->
  truthy username2 = true -> password2 <> "" ->
  (forall u, In u (users st1) -> u_username u <> castWith cs username1) ->
  (forall u, In u (users st2) -> u_username u = castWith cs username2 ->
             bcryptCompare password2 (u_password u) = false) ->
  login cs bcryptCompare mac secret now1 username1 (JStr password1) st1
  = (json 400 "Invalid credentials", st1)
  /\ login cs bcryptCompare mac secret now2 username2 (JStr password2) st2
     = (json 400 "Invalid credentials", st2).
Proof.
  intros U1 P1 U2 P2 Unknown Wrong. split.
  - unfold login. rewrite U1, (truthy_nonempty _ P1). cbn [negb orb].
    rewrite findOne_none_intro; [reflexivity |].
    intros u Hu. unfold hasUsername.
    destruct (String.eqb_spec (u_username u) (castWith cs username1)) as [E | E];
      [| reflexivity].
    exfalso. exact (Unknown u Hu E).
  - unfold login. rewrite U2, (truthy_nonempty _ P2). cbn [negb orb].
    destruct (findOne (hasUsername cs username2) (users st2)) as [user |] eqn:F;
      [| reflexivity].
    apply findOne_some in F as [Hin Hname]. unfold hasUsername in Hname.
    apply String.eqb_eq in Hname. rewrite (Wrong user Hin Hname). reflexivity.
Qed.

(** With a truthy password that is not a string, an unknown username is
    answered 400 and a known one 500: [bcrypt.compare] throws. *)
Lemma login_password_not_a_string
    (cs : jsprim -> string) (bcryptCompare : string -> string -> bool)
    (mac : string -> claims -> string) (secret : string) (now : Z) (st : Store)
    (username password : jsprim) :
  truthy username = true -> truthy password = true ->
  (forall s, password <> JStr s) ->
  ((forall u, In u (users st) -> u_username u <> castWith cs username) ->
   login cs bcryptCompare mac secret now username password st
   = (json 400 "Invalid credentials", st))
  /\ ((exists u, In u (users st) /\ u_username u = castWith cs username) ->
      login cs bcryptCompare mac secret now username password st
      = (json 500 "Server error", st)).
Proof.
  intros U P NS. unfold login. rewrite U, P. cbn [negb orb]. split.
  - intros Unknown. rewrite findOne_none_intro; [reflexivity |].
    intros u Hu. unfold hasUsername.
    destruct (String.eqb_spec (u_username u) (castWith cs username)) as [E | E];
      [| reflexivity].
    exfalso. exact (Unknown u Hu E).
  - intros (u & Hu & Hname).
    destruct (findOne (hasUsername cs username) (users st)) as [user |] eqn:F.
    + destruct password; try reflexivity. exfalso. exact (NS _ eq_refl).
    + exfalso. pose proof (findOne_none_all _ _ F u Hu) as X. unfold hasUsername in X.
      rewrite Hname, String.eqb_refl in X. discriminate.
Qed.

(** C8: a login with non-empty username and password is to be answered
    400 "Invalid credentials" for an unknown username and for a wrong
    password alike.  The handler misses a case: the comparison of a
    password that is not a string throws, and it is reached only when the
    username is known.  With the password 123 the unknown username
    "nobody" is answered 400 "Invalid credentials" and the known
    username "ann" is answered 500 "Server error": the two answers tell
    whether the username exists. *)
Theorem login_number_password_reveals_user
    (cs : jsprim -> string) (bcryptCompare : string -> string -> bool)
    (mac : string -> claims -> string) (secret : string) (now : Z) :
  let st := mkStore [mkUser "640000000000000000000001" "ann" "#secret" "ann@example.org"] [] [] in
  truthy (JStr "nobody") = true /\ truthy (JStr "ann") = true /\ truthy (JNum 123) = true
  /\ login cs bcryptCompare mac secret now (JStr "nobody") (JNum 123) st
     = (json 400 "Invalid credentials", st)
  /\ login cs bcryptCompare mac secret now (JStr "ann") (JNum 123) st
     = (json 500 "Server error", st)
  /\ fst (login cs bcryptCompare mac secret now (JStr "nobody") (JNum 123) st)
     <> fst (login cs bcryptCompare mac secret now (JStr "ann") (JNum 123) st).
Proof.
  cbv zeta. repeat split; try (vm_compute; reflexivity).
  vm_compute. discriminate.
Qed.

(* ===================================================================== *)
(** ** C10: what a schedule update writes without looking at it *)
(* ===================================================================== *)

Lemma findOneAndUpdate_at {A : Type} (p : A -> bool) (f : A -> A) pre old post :
  (forall x, In x pre -> p x = false) -> p old = true ->
  findOneAndUpdate p f (pre ++ old :: post) = Some (f old, pre ++ f old :: post).
Proof.
  intros Hpre Hold. induction pre as [| x pre IH]; cbn [app findOneAndUpdate].
  - rewrite Hold. reflexivity.
  - rewrite (Hpre x (or_introl eq_refl)), IH; [reflexivity |].
    intros y Hy. apply Hpre. right. exact Hy.
Qed.


(** A schedule update answered 200 has replaced the caller's first
    document by the union of the cast update and that document. *)
Lemma updateSchedule_200 cs co userId upd st :
  status (fst (updateSchedule cs co userId upd st)) = 200 ->
  exists update pre old post,
    validateDays upd days = None
    /\ castScheduleUpdate cs co upd = Some update
    /\ schedules st = pre ++ old :: post
    /\ ownedBy userId old = true
    /\ (forall x, In x pre -> ownedBy userId x = false)
    /\ updateSchedule cs co userId upd st
       = (mkResponse 200 (ScheduleUpdated "Schedule updated successfully" (update ∪ old)),
          mkStore (users st) (pre ++ (update ∪ old) :: post) (timeOffs st)).
Proof.
  unfold updateSchedule. destruct (validateDays upd days); [discriminate |].
  destruct (castScheduleUpdate cs co upd) as [update |]; [| discriminate].
  destruct (findOneAndUpdate _ _ (schedules st)) as [[d l'] |] eqn:F; [| discriminate].
  intros _. apply findOneAndUpdate_some in F as (pre & old & post & Hl & -> & -> & Po & Pre).
  exists update, pre, old, post. unfold applySet.
  repeat (split; [first [assumption | reflexivity] |]). reflexivity.
Qed.




(* ===================================================================== *)
(** * Further properties of the handlers *)
(* ===================================================================== *)

(** ** [validateTimeFormat] *)

(** The time pattern accepts the strings [readHM] reads with an hour up to
    23 and a minute up to 59. *)
Lemma test_timeRegex_readHM t :
  test timeRegex t
  = match readHM t with
    | Some (h, m) => (h <=? 23) && (m <=? 59)
    | None => false
    end.
Proof.
  unfold test, timeRegex, readHM. cbn [accept].
  do 5 (destruct t as [| ?c t];
        [ cbn [andb orb]; rewrite ?andb_false_r; try reflexivity;
          repeat match goal with
                 | |- context [if ?b then _ else _] => destruct b
                 end; reflexivity | ]).
  destruct t as [| c4 t].
  2:{ cbn [String.eqb]. rewrite !andb_false_r. cbn [orb].
      repeat match goal with
             | |- context [if ?b then _ else _] => destruct b
             end; reflexivity. }
  cbn [String.eqb]. rewrite !andb_true_r.
  unfold isDigit, digitVal.
  set (a := code c). set (b := code c0). set (p := code c1).
  set (x := code c2). set (y := code c3).
  match goal with
  | |- context [if ?c then Some _ else None] => destruct c eqn:C
  end.
  - apply eq_true_iff_eq.
    rewrite !andb_true_iff in C.
    rewrite ?andb_true_iff, ?orb_true_iff, ?andb_true_iff, ?Z.leb_le, ?Z.eqb_eq in *.
    lia.
  - apply not_true_is_false. intros T. apply not_true_iff_false in C. apply C. clear C.
    rewrite ?orb_true_iff, ?andb_true_iff, ?orb_true_iff, ?andb_true_iff,
      ?Z.leb_le, ?Z.eqb_eq in *.
    lia.
Qed.

(** X1: [validateTimeFormat] accepts a value exactly when it is a string
    that, with surrounding white space trimmed, is two digits, a colon and
    two digits with the hour at most 23 and the minute at most 59. *)
Theorem validateTimeFormat_hours_minutes (v : jsprim) :
  validateTimeFormat v = true
  <-> exists s h m, v = JStr s /\ readHM (trim s) = Some (h, m) /\ h <= 23 /\ m <= 59.
Proof.
  unfold validateTimeFormat. split.
  - destruct (truthy v); [| discriminate]. cbn [negb].
    destruct v as [| | b | n | s]; try (intros X; discriminate X).
    rewrite test_timeRegex_readHM.
    destruct (readHM (trim s)) as [[h m] |] eqn:R; [| discriminate].
    intros H. apply andb_prop in H as [H1 H2]. apply Z.leb_le in H1, H2.
    exists s, h, m. split; [reflexivity | split; [exact R | split; assumption]].
  - intros (s & h & m & -> & R & Hh & Hm).
    assert (T : truthy (JStr s) = true).
    { cbn [truthy]. destruct (String.eqb_spec s "") as [-> | N]; [discriminate R | reflexivity]. }
    rewrite T. cbn [negb]. rewrite test_timeRegex_readHM, R.
    apply andb_true_iff. split; apply Z.leb_le; assumption.
Qed.

(** ** The auth middleware *)

Lemma startsWith_app p t : startsWith p (p +:+ t) = true.
Proof.
  induction p as [| c p IH]; app; cbn [startsWith]; [destruct t; reflexivity |].
  rewrite Ascii.eqb_refl. exact IH.
Qed.

Lemma drop_app p t : drop (String.length p) (p +:+ t) = t.
Proof. induction p as [| c p IH]; app; cbn [drop String.length]; [destruct t; reflexivity | exact IH]. Qed.

Lemma removeFirst_prefix p t : removeFirst p (p +:+ t) = t.
Proof.
  destruct (p +:+ t) eqn:E; cbn [removeFirst]; rewrite <- E, startsWith_app; apply drop_app.
Qed.

Lemma startsWith_true p s : startsWith p s = true -> exists r, s = p +:+ r.
Proof.
  revert s. induction p as [| c p IH]; intros s H.
  - exists s. reflexivity.
  - destruct s as [| d s]; cbn [startsWith] in H; [discriminate |].
    apply andb_prop in H as [H1 H2]. apply Ascii.eqb_eq in H1. subst d.
    destruct (IH s H2) as [r ->]. exists r. reflexivity.
Qed.

(** A string in which the pattern does not occur is left as it is. *)
Lemma removeFirst_absent p s :
  (forall a b, s <> a +:+ p +:+ b) -> removeFirst p s = s.
Proof.
  induction s as [| c s IH]; intros H.
  - cbn [removeFirst]. destruct (startsWith p "") eqn:S; [| reflexivity].
    apply startsWith_true in S as [r E]. exfalso. exact (H "" r E).
  - cbn [removeFirst]. destruct (startsWith p (String c s)) eqn:S.
    + apply startsWith_true in S as [r E]. exfalso. exact (H "" r E).
    + f_equal. apply IH. intros a b E. apply (H (String c a) b). app. f_equal. exact E.
Qed.

(** X2: the middleware hands a request on only with a token that
    [jwt.verify] accepted, and every answer it gives itself is a 401; a
    header "Bearer t" is decided by [jwt.verify] on [t], and so is a header
    [t] without the scheme when "Bearer " does not occur in [t]; a missing
    header and a header with nothing after the scheme are answered 401
    "Authentication required". *)
Theorem authenticate_gate (jwtVerify : string -> string -> option (option ObjectId))
    (secret : string) :
  (forall h r, authenticate jwtVerify secret h = Rejected r -> status r = 401)
  /\ (forall h userId,
        authenticate jwtVerify secret h = Next userId ->
        exists header,
          h = Some header
          /\ jwtVerify (removeFirst "Bearer " header) secret = Some userId)
  /\ (forall t,
        t <> "" ->
        authenticate jwtVerify secret (Some ("Bearer " +:+ t))
        = match jwtVerify t secret with
          | Some userId => Next userId
          | None => Rejected (json 401 "Invalid or expired token")
          end)
  /\ (forall t,
        (forall a b, t <> a +:+ "Bearer " +:+ b) ->
        authenticate jwtVerify secret (Some t)
        = authenticate jwtVerify secret (Some ("Bearer " +:+ t)))
  /\ authenticate jwtVerify secret None = Rejected (json 401 "Authentication required")
  /\ authenticate jwtVerify secret (Some "Bearer ")
     = Rejected (json 401 "Authentication required").
Proof.
  split; [| split; [| split; [| split; [| split]]]].
  - intros h r. unfold authenticate. destruct h as [header |].
    + destruct (String.eqb _ ""); [intros [= <-]; reflexivity |].
      destruct (jwtVerify _ secret); [discriminate | intros [= <-]; reflexivity].
    + intros [= <-]. reflexivity.
  - intros h userId. unfold authenticate. destruct h as [header |]; [| discriminate].
    destruct (String.eqb _ ""); [discriminate |].
    destruct (jwtVerify _ secret) as [u |] eqn:V; [| discriminate].
    intros [= <-]. exists header. auto.
  - intros t Ht. unfold authenticate. rewrite removeFirst_prefix.
    destruct (String.eqb_spec t ""); [contradiction | reflexivity].
  - intros t Ht. unfold authenticate.
    rewrite removeFirst_prefix, (removeFirst_absent _ _ Ht). reflexivity.
  - reflexivity.
  - reflexivity.
Qed.

Lemma authenticate_gate_witness :
  authenticate (fun t k => if String.eqb t "good" then Some (Some "u1") else None) "k"
    (Some "good")
  = authenticate (fun t k => if String.eqb t "good" then Some (Some "u1") else None) "k"
      (Some "Bearer good").
Proof.
  refine (proj1 (proj2 (proj2 (proj2 (authenticate_gate _ "k")))) "good" _).
  intros a b E.
  do 5 (destruct a as [| ? a]; app; [discriminate E |];
        first [discriminate E | injection E as _ E]).
Defined.

(** ** Registration *)

Lemma findOne_none_of {A : Type} (p : A -> bool) (docs : list A) :
  findOne p docs = None <-> (forall d, In d docs -> p d = false).
Proof. split; [apply findOne_none_all | apply findOne_none_intro]. Qed.

Lemma taken_false name mail u :
  taken name mail u = false <-> u_username u <> name /\ u_email u <> mail.
Proof.
  unfold taken. rewrite orb_false_iff.
  destruct (String.eqb_spec (u_email u) mail), (String.eqb_spec (u_username u) name);
    split; intros [? ?]; try discriminate; try contradiction; auto.
Qed.

(** Every outcome of [register]: the store is unchanged, or one user and
    one default schedule are appended. *)
Lemma register_outcome castString bcryptHash mac secret now newId salt
    username email password st :
  let r := register castString bcryptHash mac secret now newId salt
             username email password st in
  let name := castWith castString username in
  let mail := castWith castString email in
  (snd r = st /\ status (fst r) <> 201)
  \/ (exists plain,
        password = JStr plain
        /\ findOne (taken name mail) (users st) = None
        /\ r = (mkResponse 201
                  (LoggedIn "User registered successfully" (issue mac secret now newId)
                     newId name mail),
                mkStore (users st ++ [mkUser newId name (bcryptHash plain salt) mail])
                  (schedules st ++ [defaultSchedule newId]) (timeOffs st))).
Proof.
  unfold register.
  destruct (negb (truthy username) || negb (truthy email) || negb (truthy password));
    [left; split; [reflexivity | discriminate] |].
  destruct (findOne _ (users st)) eqn:F; [left; split; [reflexivity | discriminate] |].
  destruct password as [| | b | n | plain]; try (left; split; [reflexivity | discriminate]).
  destruct (String.eqb _ "" || String.eqb _ "");
    [left; split; [reflexivity | discriminate] |].
  right. exists plain. repeat split.
Qed.

(** X3: registration answers 400 "All fields are required" when a field
    is missing or empty and 400 "User already exists" when a stored user
    has the username or the e-mail address, both without touching the
    store; with three non-empty strings that no stored user has, it
    answers 201, appends one user whose password is the hash and one
    default schedule of that user, and the token of the answer verifies to
    the new user's id. *)
Theorem register_answers (castString : jsprim -> string)
    (bcryptHash : string -> string -> string) (mac : string -> claims -> string)
    (secret : string) (now : Z) (newId : ObjectId) (salt : string) (st : Store) :
  (forall username email password,
     truthy username = false \/ truthy email = false \/ truthy password = false ->
     register castString bcryptHash mac secret now newId salt username email password st
     = (json 400 "All fields are required", st))
  /\ (forall username email password u,
        truthy username = true -> truthy email = true -> truthy password = true ->
        In u (users st) ->
        u_username u = castWith castString username
        \/ u_email u = castWith castString email ->
        register castString bcryptHash mac secret now newId salt username email password st
        = (json 400 "User already exists", st))
  /\ (forall name mail plain,
        name <> "" -> mail <> "" -> plain <> "" ->
        (forall u, In u (users st) -> u_username u <> name /\ u_email u <> mail) ->
        register castString bcryptHash mac secret now newId salt
          (JStr name) (JStr mail) (JStr plain) st
        = (mkResponse 201
             (LoggedIn "User registered successfully" (issue mac secret now newId)
                newId name mail),
           mkStore (users st ++ [mkUser newId name (bcryptHash plain salt) mail])
             (schedules st ++ [defaultSchedule newId]) (timeOffs st))
        /\ verify mac secret now (issue mac secret now newId) = inl newId).
Proof.
  split; [| split].
  - intros username email password H. unfold register.
    replace (negb (truthy username) || negb (truthy email) || negb (truthy password))
      with true; [reflexivity |].
    symmetry. destruct H as [-> | [-> | ->]]; cbn [negb orb];
      rewrite ?orb_true_r; reflexivity.
  - intros username email password u Tu Te Tp Hin Hdup. unfold register.
    rewrite Tu, Te, Tp. cbn [negb orb].
    destruct (findOne _ (users st)) eqn:F; [reflexivity | exfalso].
    pose proof (findOne_none_all _ _ F u Hin) as T. apply taken_false in T as [T1 T2].
    destruct Hdup; contradiction.
  - intros name mail plain Hn Hm Hp Fresh. split.
    + unfold register.
      rewrite (truthy_nonempty _ Hn), (truthy_nonempty _ Hm), (truthy_nonempty _ Hp).
      cbn [negb orb castWith].
      rewrite (findOne_none_intro (taken name mail) (users st));
        [| intros u Hu; apply taken_false, Fresh, Hu].
      destruct (String.eqb_spec name ""); [contradiction |].
      destruct (String.eqb_spec mail ""); [contradiction |]. reflexivity.
    + unfold verify, issue. rewrite String.eqb_refl. cbn [negb c_exp c_userId].
      destruct (Z.leb_spec (now + 24 * 60 * 60) now); [lia | reflexivity].
Qed.

Lemma register_answers_witness :
  fst (register (fun _ => "x") (fun p s => s +:+ p) (fun k _ => k) "k" 0 "u2" "salt"
         (JStr "bob") (JStr "ann@x") (JStr "pw")
         (mkStore [mkUser "u1" "ann" "h" "ann@x"] [] []))
  = json 400 "User already exists".
Proof.
  refine (f_equal fst
            (proj1 (proj2 (register_answers (fun _ => "x") (fun p s => s +:+ p)
                             (fun k _ => k) "k" 0 "u2" "salt"
                             (mkStore [mkUser "u1" "ann" "h" "ann@x"] [] [])))
               (JStr "bob") (JStr "ann@x") (JStr "pw") (mkUser "u1" "ann" "h" "ann@x")
               _ _ _ _ _)).
  - reflexivity.
  - reflexivity.
  - reflexivity.
  - left. reflexivity.
  - right. reflexivity.
Defined.

(** ** What the routes keep *)

Lemma login_store cs bcryptCompare mac secret now username password st :
  snd (login cs bcryptCompare mac secret now username password st) = st.
Proof.
  unfold login. destruct (negb (truthy username) || negb (truthy password)); [reflexivity |].
  destruct (findOne _ (users st)); [| reflexivity].
  destruct password; try reflexivity.
  destruct (negb (bcryptCompare _ _)); reflexivity.
Qed.

Lemma getSchedule_timeOffs userId st : timeOffs (snd (getSchedule userId st)) = timeOffs st.
Proof. unfold getSchedule. destruct (findOne _ _); reflexivity. Qed.

Lemma updateSchedule_timeOffs cs co userId upd st :
  timeOffs (snd (updateSchedule cs co userId upd st)) = timeOffs st.
Proof.
  unfold updateSchedule. destruct (validateDays _ _); [reflexivity |].
  destruct (castScheduleUpdate _ _ _); [| reflexivity].
  destruct (findOneAndUpdate _ _ _) as [[? ?] |]; reflexivity.
Qed.

Lemma updateSchedule_users cs co userId upd st :
  users (snd (updateSchedule cs co userId upd st)) = users st.
Proof.
  unfold updateSchedule. destruct (validateDays _ _); [reflexivity |].
  destruct (castScheduleUpdate _ _ _); [| reflexivity].
  destruct (findOneAndUpdate _ _ _) as [[? ?] |]; reflexivity.
Qed.

Lemma deleteTimeOff_users userId id st : users (snd (deleteTimeOff userId id st)) = users st.
Proof.
  unfold deleteTimeOff. destruct (castObjectId id) as [oid |]; [| reflexivity].
  destruct (findOneAndDelete _ _) as [[? ?] |]; reflexivity.
Qed.

Lemma NoDup_snoc {A : Type} (l : list A) (x : A) :
  NoDup l -> ~ In x l -> NoDup (l ++ [x]).
Proof.
  intros Hl Hx. apply NoDup_app. split; [exact Hl | split].
  - intros y Hy Hin. apply list_elem_of_In in Hy, Hin. destruct Hin as [<- | []].
    contradiction.
  - apply NoDup_singleton.
Qed.

(** A request leaves the users as they are or appends one whose username
    and e-mail address no stored user has. *)
Lemma storeAfter_users lp castString co uo bcryptHash bcryptCompare mac secret r st :
  users (storeAfter lp castString co uo bcryptHash bcryptCompare mac secret r st) = users st
  \/ exists u,
       users (storeAfter lp castString co uo bcryptHash bcryptCompare mac secret r st)
       = users st ++ [u]
       /\ forall x, In x (users st) ->
                    u_username x <> u_username u /\ u_email x <> u_email u.
Proof.
  destruct r; cbn [storeAfter].
  - destruct (register_outcome castString bcryptHash mac secret now newId salt
                username email password st) as [[-> _] | (plain & _ & F & ->)];
      [left; reflexivity | right].
    eexists. split; [reflexivity |]. intros x Hx. cbn [u_username u_email].
    apply taken_false. exact (findOne_none_all _ _ F x Hx).
  - left. rewrite login_store. reflexivity.
  - left. unfold getSchedule. destruct (findOne _ _); reflexivity.
  - left. apply updateSchedule_users.
  - left. reflexivity.
  - left.
    destruct (createTimeOff_outcome lp castString now newId userId type startDate endDate
                description st) as [[-> _] | (fin & t & _ & _ & ->)]; reflexivity.
  - left.
    destruct (updateTimeOff_outcome lp castString uo userId id type startDate endDate
                description st)
      as [[-> _] | (fin & ty & s & e & d & oid & pre & old & post & _ & _ & _ & _ & _ & _
                    & _ & _ & _ & _ & ->)]; reflexivity.
  - left. apply deleteTimeOff_users.
Qed.

(** X4: whatever requests are served, one after the other, usernames and
    e-mail addresses stay unique among the stored users. *)
Theorem unique_users_kept (lp : string -> option Z) (castString : jsprim -> string)
    (co : string -> jsval -> option jsval) (uo : gmap string jsprim -> option jsprim)
    (bcryptHash : string -> string -> string) (bcryptCompare : string -> string -> bool)
    (mac : string -> claims -> string) (secret : string)
    (rs : list request) (st : Store) :
  uniqueUsers st ->
  uniqueUsers (serve lp castString co uo bcryptHash bcryptCompare mac secret rs st).
Proof.
  revert st. induction rs as [| r rs IH]; intros st H; [exact H |].
  cbn [serve fold_left]. apply IH. destruct H as [Hn He]. unfold uniqueUsers.
  destruct (storeAfter_users lp castString co uo bcryptHash bcryptCompare mac secret r st)
    as [-> | (u & -> & Fresh)]; [split; assumption |].
  rewrite !map_app. cbn [List.map].
  split; apply NoDup_snoc; try assumption; intros Hin;
    apply in_map_iff in Hin as (x & Hx & Hin); destruct (Fresh x Hin); contradiction.
Qed.

Lemma unique_users_kept_witness :
  uniqueUsers
    (serve (fun _ => None) printPrim (fun _ _ => None) (fun _ => None)
       (fun p s => s +:+ p)
       (fun c h => String.eqb h ("s" +:+ c)) (fun k _ => k) "k"
       [PostRegister 0 "640000000000000000000001" "s" (JStr "ann") (JStr "ann@x") (JStr "pw");
        PostRegister 1 "640000000000000000000002" "s" (JStr "ann") (JStr "other@x") (JStr "pw")]
       (mkStore [] [] [])).
Proof.
  apply unique_users_kept. split; constructor.
Defined.

(** ** Stored time-off records *)

(** The record [createTimeOff] stores is well formed. *)
Lemma createTimeOff_stores_wellFormed lp cs now newId userId type startDate endDate
    description fin t :
  timeOffCheck lp type startDate endDate = inr fin ->
  newTimeOff cs now newId userId type startDate fin description = Some t ->
  wellFormed lp t.
Proof.
  intros C T. apply timeOffCheck_inr in C as (_ & Vs & _ & Vf & G).
  apply newTimeOff_some in T as (ty & s & e & d & _ & Cs & Ce & _ & Acc & _ & ->).
  destruct (validateDateValue_str _ Vs) as (x & -> & Vx & _).
  destruct (validateDateValue_str _ Vf) as (y & -> & Vy & _).
  cbn [castValue castPrim castWith] in Cs, Ce. injection Cs as <-. injection Ce as <-.
  cbn [asPrim] in G. repeat split; assumption.
Qed.

(** The record [updateTimeOff] puts in the place of a well-formed one is
    well formed. *)
Lemma updateTimeOff_stores_wellFormed lp cs uo type startDate endDate fin ty s e d old :
  timeOffCheck lp type startDate endDate = inr fin ->
  castUpdateValue cs uo startDate = Some s ->
  castUpdateValue cs uo fin = Some e ->
  updateValid ty s e = true ->
  wellFormed lp old ->
  wellFormed lp (setFields ty s e d old).
Proof.
  intros C Cs Ce V (S & Acc & _).
  apply timeOffCheck_inr in C as (_ & Vs & _ & Vf & G).
  destruct (validateDateValue_str _ Vs) as (x & -> & Vx & _).
  destruct (validateDateValue_str _ Vf) as (y & -> & Vy & _).
  cbn [castUpdateValue castValue castPrim castWith] in Cs, Ce.
  injection Cs as <-. injection Ce as <-. cbn [asPrim] in G.
  unfold wellFormed.
  cbn [setFields keep t_status t_type t_startDate t_endDate].
  repeat split; try assumption.
  unfold updateValid in V. apply andb_prop in V as [V _]. apply andb_prop in V as [V _].
  destruct ty; cbn [keep]; assumption.
Qed.

(** A request keeps the stored time-off records well formed. *)
Lemma storeAfter_wellFormed lp castString co uo bcryptHash bcryptCompare mac secret r st :
  (forall t, In t (timeOffs st) -> wellFormed lp t) ->
  forall t,
    In t (timeOffs (storeAfter lp castString co uo bcryptHash bcryptCompare mac secret
                      r st)) ->
    wellFormed lp t.
Proof.
  intros Inv. destruct r; cbn [storeAfter].
  - destruct (register_outcome castString bcryptHash mac secret now newId salt
                username email password st) as [[-> _] | (plain & _ & _ & ->)]; exact Inv.
  - rewrite login_store. exact Inv.
  - intros t. rewrite getSchedule_timeOffs. apply Inv.
  - intros t. rewrite updateSchedule_timeOffs. apply Inv.
  - exact Inv.
  - destruct (createTimeOff_outcome lp castString now newId userId type startDate endDate
                description st) as [[-> _] | (fin & t0 & C & T & ->)]; [exact Inv |].
    intros t Ht. cbn [snd timeOffs] in Ht. apply in_app_or in Ht as [Ht | [<- | []]].
    + exact (Inv t Ht).
    + exact (createTimeOff_stores_wellFormed _ _ _ _ _ _ _ _ _ _ _ C T).
  - destruct (updateTimeOff_outcome lp castString uo userId id type startDate endDate
                description st)
      as [[-> _] | (fin & ty & s & e & d & oid & pre & old & post & C & _ & Cs & Ce & _ & _
                    & V & Hl & _ & _ & ->)]; [exact Inv |].
    intros t Ht. cbn [snd timeOffs] in Ht.
    apply in_app_or in Ht as [Ht | [<- | Ht]].
    + apply Inv. rewrite Hl. apply in_or_app. left. exact Ht.
    + apply (updateTimeOff_stores_wellFormed lp castString uo type startDate endDate fin);
        try assumption.
      apply Inv. rewrite Hl. apply in_or_app. right. left. reflexivity.
    + apply Inv. rewrite Hl. apply in_or_app. right. right. exact Ht.
  - unfold deleteTimeOff. destruct (castObjectId id) as [oid |]; [| exact Inv].
    destruct (findOneAndDelete (matches oid userId) (timeOffs st)) as [[d l'] |] eqn:F;
      [| exact Inv].
    apply findOneAndDelete_some in F as (pre & post & Hl & -> & _).
    intros t Ht. cbn [snd timeOffs] in Ht. apply Inv. rewrite Hl.
    apply in_app_or in Ht as [Ht | Ht]; apply in_or_app; [left | right; right]; exact Ht.
Qed.

(** X5: whatever requests are served, every stored time-off record keeps
    the status "pending" (no route changes it), a type of the four kinds,
    a start and an end date that [validateDateFormat] accepts, and a start
    date that does not compare later than the end date. *)
Theorem timeOffs_stay_wellFormed (lp : string -> option Z)
    (castString : jsprim -> string) (co : string -> jsval -> option jsval)
    (uo : gmap string jsprim -> option jsprim) (bcryptHash : string -> string -> string)
    (bcryptCompare : string -> string -> bool) (mac : string -> claims -> string)
    (secret : string) (rs : list request) (st : Store) :
  (forall t, In t (timeOffs st) -> wellFormed lp t) ->
  forall t,
    In t (timeOffs (serve lp castString co uo bcryptHash bcryptCompare mac secret rs st)) ->
    wellFormed lp t.
Proof.
  revert st. induction rs as [| r rs IH]; intros st Inv; [exact Inv |].
  cbn [serve fold_left]. apply IH. apply storeAfter_wellFormed. exact Inv.
Qed.

Lemma timeOffs_stay_wellFormed_witness :
  wellFormed (fun _ => None)
    (mkTimeOff "650000000000000000000001" "640000000000000000000001" (JStr "dayOff") (JStr "2024-06-01") (JStr "2024-06-01")
       (JStr "moved") "pending" 5).
Proof.
  apply (timeOffs_stay_wellFormed (fun _ => None) printPrim (fun _ _ => None)
           (fun _ => None) (fun p s => s +:+ p)
           (fun c h => String.eqb h ("s" +:+ c)) (fun k _ => k) "k"
           [PostTimeOff 5 "650000000000000000000001" "640000000000000000000001" (JPrim (JStr "vacation")) (JPrim (JStr "2024-05-01"))
              (JPrim (JStr "2024-05-03")) (JPrim JUndefined);
            PutTimeOff "640000000000000000000001" "650000000000000000000001" (JPrim (JStr "dayOff")) (JPrim (JStr "2024-06-01"))
              (JPrim JUndefined) (JPrim (JStr "moved"))]
           (mkStore [] [] [])).
  - intros t [].
  - vm_compute. left. reflexivity.
Defined.

(** ** Listing time-off records *)

Lemma insertDesc_perm t l : Permutation (insertDesc t l) (t :: l).
Proof.
  induction l as [| x rest IH]; cbn [insertDesc]; [reflexivity |].
  destruct (t_createdAt x <? t_createdAt t); [reflexivity |].
  rewrite IH. apply perm_swap.
Qed.

Lemma insertDesc_sorted t l : newestFirst l -> newestFirst (insertDesc t l).
Proof.
  unfold newestFirst. induction 1 as [| x rest Hs IH Hx]; cbn [insertDesc].
  - constructor; constructor.
  - destruct (Z.ltb_spec (t_createdAt x) (t_createdAt t)) as [L | G].
    + constructor; [constructor; assumption |].
      constructor; [lia |].
      eapply Forall_impl; [exact Hx |]. cbn. intros a Ha. lia.
    + constructor; [exact IH |].
      eapply Permutation_Forall; [symmetry; apply insertDesc_perm |].
      constructor; assumption.
Qed.

Lemma sortDesc_perm l : Permutation (sortDesc l) l.
Proof.
  induction l as [| x rest IH]; cbn [sortDesc fold_right]; [reflexivity |].
  fold (sortDesc rest). rewrite insertDesc_perm, IH. reflexivity.
Qed.

Lemma sortDesc_sorted l : newestFirst (sortDesc l).
Proof.
  induction l as [| x rest IH]; cbn [sortDesc fold_right]; [constructor |].
  apply insertDesc_sorted. exact IH.
Qed.

(** X6: the list route answers 200 with the caller's records and no
    others, each as often as it is stored, ordered from the newest to the
    oldest creation time. *)
Theorem listTimeOff_newest_first (userId : ObjectId) (st : Store) :
  fst (listTimeOff userId st) = 200
  /\ newestFirst (snd (listTimeOff userId st))
  /\ Permutation (snd (listTimeOff userId st))
       (List.filter (ownedByUser userId) (timeOffs st))
  /\ (forall t, In t (snd (listTimeOff userId st))
                <-> In t (timeOffs st) /\ t_userId t = userId).
Proof.
  unfold listTimeOff. cbn [fst snd].
  split; [reflexivity |]. split; [apply sortDesc_sorted |].
  split; [apply sortDesc_perm |].
  intros t. split.
  - intros H. apply (Permutation_in _ (sortDesc_perm _)) in H.
    apply filter_In in H as [H1 H2]. split; [exact H1 |].
    unfold ownedByUser in H2. apply String.eqb_eq. exact H2.
  - intros [H1 H2]. apply (Permutation_in _ (Permutation_sym (sortDesc_perm _))).
    apply filter_In. split; [exact H1 |]. unfold ownedByUser. apply String.eqb_eq. exact H2.
Qed.

(** ** Time-off records of different users *)

Lemma ownedByUser_other userId other t :
  t_userId t = userId -> userId <> other -> ownedByUser other t = false.
Proof.
  intros <- N. unfold ownedByUser. destruct (String.eqb_spec (t_userId t) other);
    [contradiction | reflexivity].
Qed.

(** X7: a request made on behalf of one user leaves the time-off records
    of every other user as they are, in the store and in what the list
    route shows to that other user. *)
Theorem other_users_records_untouched (lp : string -> option Z)
    (castString : jsprim -> string) (co : string -> jsval -> option jsval)
    (uo : gmap string jsprim -> option jsprim) (bcryptHash : string -> string -> string)
    (bcryptCompare : string -> string -> bool) (mac : string -> claims -> string)
    (secret : string) (r : request) (st : Store) (other : ObjectId) :
  actor r <> Some other ->
  List.filter (ownedByUser other)
    (timeOffs (storeAfter lp castString co uo bcryptHash bcryptCompare mac secret r st))
  = List.filter (ownedByUser other) (timeOffs st)
  /\ listTimeOff other
       (storeAfter lp castString co uo bcryptHash bcryptCompare mac secret r st)
     = listTimeOff other st.
Proof.
  intros Ha.
  assert (E : List.filter (ownedByUser other)
                (timeOffs (storeAfter lp castString co uo bcryptHash bcryptCompare mac
                             secret r st))
              = List.filter (ownedByUser other) (timeOffs st)).
  { destruct r; cbn [storeAfter actor] in *.
    - destruct (register_outcome castString bcryptHash mac secret now newId salt
                  username email password st) as [[-> _] | (plain & _ & _ & ->)]; reflexivity.
    - rewrite login_store. reflexivity.
    - rewrite getSchedule_timeOffs. reflexivity.
    - rewrite updateSchedule_timeOffs. reflexivity.
    - reflexivity.
    - assert (N : userId <> other) by congruence.
      destruct (createTimeOff_outcome lp castString now newId userId type startDate endDate
                  description st) as [[-> _] | (fin & t & _ & T & ->)]; [reflexivity |].
      apply newTimeOff_some in T as (ty & s & e & d & _ & _ & _ & _ & _ & _ & ->).
      cbn [snd timeOffs]. rewrite List.filter_app. cbn [List.filter].
      rewrite (ownedByUser_other userId other) by (reflexivity || exact N).
      apply app_nil_r.
    - assert (N : userId <> other) by congruence.
      destruct (updateTimeOff_outcome lp castString uo userId id type startDate endDate
                  description st)
        as [[-> _] | (fin & ty & s & e & d & oid & pre & old & post & _ & _ & _ & _ & _ & _
                      & _ & Hl & Po & _ & ->)]; [reflexivity |].
      cbn [snd timeOffs]. rewrite Hl, !List.filter_app. cbn [List.filter].
      apply matches_owner in Po as [_ Po].
      rewrite (ownedByUser_other userId other old Po N).
      rewrite (ownedByUser_other userId other) by (exact Po || exact N). reflexivity.
    - assert (N : userId <> other) by congruence.
      unfold deleteTimeOff. destruct (castObjectId id) as [oid |]; [| reflexivity].
      destruct (findOneAndDelete (matches oid userId) (timeOffs st)) as [[d l'] |] eqn:F;
        [| reflexivity].
      apply findOneAndDelete_some in F as (pre & post & Hl & -> & Pd).
      cbn [snd timeOffs]. rewrite Hl, !List.filter_app. cbn [List.filter].
      apply matches_owner in Pd as [_ Pd].
      rewrite (ownedByUser_other userId other d Pd N). reflexivity. }
  split; [exact E |]. unfold listTimeOff. rewrite E. reflexivity.
Qed.

Lemma other_users_records_untouched_witness :
  listTimeOff "640000000000000000000001"
    (storeAfter (fun _ => None) printPrim (fun _ _ => None) (fun _ => None)
       (fun p s => s +:+ p)
       (fun c h => String.eqb h ("s" +:+ c)) (fun k _ => k) "k"
       (DeleteTimeOff "640000000000000000000002" "650000000000000000000001")
       (mkStore [] [] [mkTimeOff "650000000000000000000001" "640000000000000000000001" (JStr "vacation") (JStr "2024-05-01")
                         (JStr "2024-05-03") JNull "pending" 0]))
  = listTimeOff "640000000000000000000001"
      (mkStore [] [] [mkTimeOff "650000000000000000000001" "640000000000000000000001" (JStr "vacation") (JStr "2024-05-01")
                        (JStr "2024-05-03") JNull "pending" 0]).
Proof.
  refine (proj2 (other_users_records_untouched _ _ _ _ _ _ _ _
                   (DeleteTimeOff "640000000000000000000002" "650000000000000000000001") _ "640000000000000000000001" _)).
  cbn [actor]. discriminate.
Defined.

(** ** Requests in sequence *)

Lemma findOneAndDelete_at {A : Type} (p : A -> bool) pre d post :
  (forall x, In x pre -> p x = false) -> p d = true ->
  findOneAndDelete p (pre ++ d :: post) = Some (d, pre ++ post).
Proof.
  intros Hpre Hd. induction pre as [| x pre IH]; cbn [app findOneAndDelete].
  - rewrite Hd. reflexivity.
  - rewrite (Hpre x (or_introl eq_refl)), IH; [reflexivity |].
    intros y Hy. apply Hpre. right. exact Hy.
Qed.

Lemma matches_self id userId type startDate fin description status createdAt :
  matches id userId (mkTimeOff id userId type startDate fin description status createdAt)
  = true.
Proof. unfold matches. cbn [t_id t_userId]. rewrite !String.eqb_refl. reflexivity. Qed.

(** X8: when no stored record has the new id and the caller as owner,
    deleting a record right after creating it gives back the store as it
    was before the creation. *)
Theorem create_then_delete (lp : string -> option Z) (cs : jsprim -> string) (now : Z)
    (newId userId : ObjectId) (type startDate endDate description : jsval) (st : Store) :
  noOwnedRecord userId newId st ->
  status (fst (createTimeOff lp cs now newId userId type startDate endDate description st))
  = 201 ->
  deleteTimeOff userId newId
    (snd (createTimeOff lp cs now newId userId type startDate endDate description st))
  = (json 200 "Time off request deleted successfully", st).
Proof.
  intros Fresh H.
  destruct (createTimeOff_outcome lp cs now newId userId type startDate endDate
              description st) as [[_ N] | (fin & t & _ & T & ->)]; [contradiction |].
  apply newTimeOff_some in T as (ty & s & e & d & _ & _ & _ & _ & _ & I & ->).
  unfold deleteTimeOff. rewrite (castObjectId_written _ I). cbn [snd timeOffs].
  rewrite (findOneAndDelete_at _ _ _ [] (noOwnedRecord_matches _ _ _ Fresh)
             (matches_self _ _ _ _ _ _ _ _)).
  rewrite app_nil_r. destruct st. reflexivity.
Qed.

Lemma create_then_delete_witness :
  deleteTimeOff "640000000000000000000001" "650000000000000000000002"
    (snd (createTimeOff (fun _ => None) printPrim 9 "650000000000000000000002" "640000000000000000000001" (JPrim (JStr "other"))
            (JPrim (JStr "2024-07-01")) (JPrim (JStr "2024-07-01")) (JPrim JNull)
            (mkStore [] [] [mkTimeOff "650000000000000000000001" "640000000000000000000001" (JStr "vacation") (JStr "2024-05-01")
                              (JStr "2024-05-03") JNull "pending" 0])))
  = (json 200 "Time off request deleted successfully",
     mkStore [] [] [mkTimeOff "650000000000000000000001" "640000000000000000000001" (JStr "vacation") (JStr "2024-05-01")
                      (JStr "2024-05-03") JNull "pending" 0]).
Proof.
  apply create_then_delete.
  - intros t [<- | []]. discriminate.
  - vm_compute. reflexivity.
Defined.

Lemma sortDesc_snoc_newest m x :
  (forall t, In t m -> t_createdAt t < t_createdAt x) ->
  sortDesc (m ++ [x]) = x :: sortDesc m.
Proof.
  induction m as [| a m IH]; intros H; [reflexivity |].
  cbn [app sortDesc fold_right]. fold (sortDesc (m ++ [x])). fold (sortDesc m).
  rewrite IH by (intros t Ht; apply H; right; exact Ht).
  cbn [insertDesc].
  destruct (Z.ltb_spec (t_createdAt x) (t_createdAt a)) as [L | G]; [| reflexivity].
  specialize (H a (or_introl eq_refl)). lia.
Qed.

(** X9: a record created with a creation time later than that of every
    record the caller already has is the first of the list the caller gets
    afterwards, followed by the list as it was.  The record holds the
    dates of the request, the end date being the start date for the type
    "dayOff", and the casts of its type and description. *)
Theorem created_record_listed_first (lp : string -> option Z) (cs : jsprim -> string)
    (now : Z) (newId userId : ObjectId) (type startDate endDate description : jsval)
    (st : Store) :
  (forall t, In t (timeOffs st) -> t_userId t = userId -> t_createdAt t < now) ->
  status (fst (createTimeOff lp cs now newId userId type startDate endDate description st))
  = 201 ->
  exists ty s e d,
    castValue cs type = Some ty
    /\ startDate = JPrim s
    /\ (if isDayOff type then startDate else endDate) = JPrim e
    /\ castValue cs description = Some d
    /\ snd (listTimeOff userId
              (snd (createTimeOff lp cs now newId userId type startDate endDate
                      description st)))
       = mkTimeOff newId userId ty s e d "pending" now :: snd (listTimeOff userId st).
Proof.
  intros Old H.
  destruct (createTimeOff_outcome lp cs now newId userId type startDate endDate
              description st) as [[_ N] | (fin & t & C & T & ->)]; [contradiction |].
  apply timeOffCheck_inr in C as (_ & Vs & Hfin & Vf & _).
  apply newTimeOff_some in T as (ty & s & e & d & Cty & Cs & Ce & Cd & _ & _ & ->).
  destruct (castValue_date cs startDate Vs) as (x & Ex & Cx & _).
  destruct (castValue_date cs fin Vf) as (y & Ey & Cy & _).
  rewrite Cx in Cs. rewrite Cy in Ce. injection Cs as <-. injection Ce as <-.
  exists ty, (JStr x), (JStr y), d.
  split; [exact Cty |]. split; [exact Ex |]. split; [rewrite <- Hfin; exact Ey |].
  split; [exact Cd |].
  unfold listTimeOff. cbn [snd timeOffs].
  rewrite List.filter_app. cbn [List.filter]. unfold ownedByUser at 2. cbn [t_userId].
  rewrite String.eqb_refl. apply sortDesc_snoc_newest.
  intros t Ht. apply filter_In in Ht as [Ht Ho]. cbn [t_createdAt].
  apply Old; [exact Ht |]. unfold ownedByUser in Ho. apply String.eqb_eq. exact Ho.
Qed.

Lemma created_record_listed_first_witness :
  snd (listTimeOff "640000000000000000000001"
         (snd (createTimeOff (fun _ => None) printPrim 9 "650000000000000000000002" "640000000000000000000001"
                 (JPrim (JStr "dayOff")) (JPrim (JStr "2024-07-01"))
                 (JPrim JUndefined) (JPrim JNull)
                 (mkStore [] [] [mkTimeOff "650000000000000000000001" "640000000000000000000001" (JStr "vacation")
                                   (JStr "2024-05-01") (JStr "2024-05-03") JNull
                                   "pending" 3]))))
  = [mkTimeOff "650000000000000000000002" "640000000000000000000001" (JStr "dayOff") (JStr "2024-07-01") (JStr "2024-07-01") JNull
       "pending" 9;
     mkTimeOff "650000000000000000000001" "640000000000000000000001" (JStr "vacation") (JStr "2024-05-01") (JStr "2024-05-03") JNull
       "pending" 3].
Proof.
  destruct (created_record_listed_first (fun _ => None) printPrim 9 "650000000000000000000002" "640000000000000000000001"
              (JPrim (JStr "dayOff")) (JPrim (JStr "2024-07-01")) (JPrim JUndefined)
              (JPrim JNull)
              (mkStore [] [] [mkTimeOff "650000000000000000000001" "640000000000000000000001" (JStr "vacation")
                                (JStr "2024-05-01") (JStr "2024-05-03") JNull
                                "pending" 3]))
    as (ty & s & e & d & Cty & Es & Ee & Cd & E).
  - intros t [<- | []] _. cbn [t_createdAt]. lia.
  - vm_compute. reflexivity.
  - rewrite E. cbn in Cty, Ee, Cd. injection Cty as <-. injection Es as <-.
    injection Ee as <-. injection Cd as <-. reflexivity.
Defined.

Lemma keep_idem a b : keep a (keep a b) = keep a b.
Proof. destruct a; reflexivity. Qed.

Lemma setFields_idem ty s e d t :
  setFields ty s e d (setFields ty s e d t) = setFields ty s e d t.
Proof.
  unfold setFields.
  cbn [t_id t_userId t_type t_startDate t_endDate t_description t_status t_createdAt].
  rewrite !keep_idem. reflexivity.
Qed.

(** X10: sending the same update twice gives the same answer and the same
    store as sending it once. *)
Theorem updateTimeOff_idempotent (lp : string -> option Z) (cs : jsprim -> string)
    (uo : gmap string jsprim -> option jsprim) (userId id : ObjectId)
    (type startDate endDate description : jsval) (st : Store) :
  updateTimeOff lp cs uo userId id type startDate endDate description
    (snd (updateTimeOff lp cs uo userId id type startDate endDate description st))
  = updateTimeOff lp cs uo userId id type startDate endDate description st.
Proof.
  rewrite !updateTimeOff_eq.
  destruct (timeOffCheck lp type startDate endDate) as [r | fin]; [reflexivity |].
  destruct (castUpdateValue cs uo type) as [ty |]; [| reflexivity].
  destruct (castUpdateValue cs uo startDate) as [s |]; [| reflexivity].
  destruct (castUpdateValue cs uo fin) as [e |]; [| reflexivity].
  destruct (castUpdateValue cs uo description) as [d |]; [| reflexivity].
  destruct (castObjectId id) as [oid |]; [| reflexivity].
  destruct (updateValid ty s e); [| reflexivity].
  destruct (findOneAndUpdate _ _ (timeOffs st)) as [[t l'] |] eqn:F.
  - apply findOneAndUpdate_some in F as (pre & old & post & Hl & -> & -> & Po & Pre).
    cbn [snd timeOffs users schedules].
    rewrite (findOneAndUpdate_at _ _ pre (setFields ty s e d old) post Pre Po).
    rewrite setFields_idem. reflexivity.
  - cbn [snd]. rewrite F. reflexivity.
Qed.

Lemma register_201_truthy castString bcryptHash mac secret now newId salt
    username email password st :
  status (fst (register castString bcryptHash mac secret now newId salt
                 username email password st)) = 201 ->
  truthy username = true /\ truthy email = true /\ truthy password = true.
Proof.
  unfold register.
  destruct (truthy username), (truthy email), (truthy password); cbn [negb orb fst status json];
    intros H; try discriminate H; auto.
Qed.

(** X11: after a registration that was answered 201, a login with the
    same username and password is answered 200 "Login successful" for the
    new user, provided the password compares equal to its own hash; the
    token of that answer verifies to the new user's id. *)
Theorem register_then_login (castString : jsprim -> string)
    (bcryptHash : string -> string -> string) (bcryptCompare : string -> string -> bool)
    (mac : string -> claims -> string) (secret : string) (now later : Z)
    (newId : ObjectId) (salt name mail plain : string) (st : Store) :
  bcryptCompare plain (bcryptHash plain salt) = true ->
  status (fst (register castString bcryptHash mac secret now newId salt
                 (JStr name) (JStr mail) (JStr plain) st)) = 201 ->
  login castString bcryptCompare mac secret later (JStr name) (JStr plain)
    (snd (register castString bcryptHash mac secret now newId salt
            (JStr name) (JStr mail) (JStr plain) st))
  = (mkResponse 200
       (LoggedIn "Login successful" (issue mac secret later newId) newId name mail),
     snd (register castString bcryptHash mac secret now newId salt
            (JStr name) (JStr mail) (JStr plain) st))
  /\ verify mac secret later (issue mac secret later newId) = inl newId.
Proof.
  intros Hb H.
  destruct (register_201_truthy _ _ _ _ _ _ _ _ _ _ _ H) as (Tn & _ & Tp).
  destruct (register_outcome castString bcryptHash mac secret now newId salt
              (JStr name) (JStr mail) (JStr plain) st)
    as [[_ N] | (plain' & [= <-] & F & E)]; [contradiction |].
  cbn [castWith] in F, E. split.
  - rewrite E. cbn [snd]. unfold login. rewrite Tn, Tp. cbn [negb orb users].
    rewrite (findOne_app_new (hasUsername castString (JStr name)) (users st)
               (mkUser newId name (bcryptHash plain salt) mail)).
    + cbn [u_password u_id u_username u_email]. rewrite Hb. reflexivity.
    + apply findOne_none_intro. intros u Hu. unfold hasUsername. cbn [castWith].
      pose proof (findOne_none_all _ _ F u Hu) as T. apply taken_false in T as [T _].
      destruct (String.eqb_spec (u_username u) name); [contradiction | reflexivity].
    + unfold hasUsername. cbn [castWith u_username]. apply String.eqb_refl.
  - unfold verify, issue. rewrite String.eqb_refl. cbn [negb c_exp c_userId].
    destruct (Z.leb_spec (later + 24 * 60 * 60) later); [lia | reflexivity].
Qed.

Lemma register_then_login_witness :
  status (fst (login printPrim (fun c h => String.eqb h ("s" +:+ c)) (fun k _ => k) "k" 50
                 (JStr "ann") (JStr "pw")
                 (snd (register printPrim (fun p s => s +:+ p) (fun k _ => k) "k" 0
                         "640000000000000000000001" "s" (JStr "ann") (JStr "ann@x") (JStr "pw")
                         (mkStore [] [] []))))) = 200.
Proof.
  rewrite (proj1 (register_then_login printPrim (fun p s => s +:+ p)
                    (fun c h => String.eqb h ("s" +:+ c)) (fun k _ => k) "k" 0 50
                    "640000000000000000000001" "s" "ann" "ann@x" "pw" (mkStore [] [] []) eq_refl eq_refl)).
  reflexivity.
Defined.

(** X12: after a registration that was answered 201 for an id that owned
    no schedule before, the schedule fetch of the new user answers with
    the default schedule and adds nothing to the store. *)
Theorem register_then_getSchedule (castString : jsprim -> string)
    (bcryptHash : string -> string -> string) (mac : string -> claims -> string)
    (secret : string) (now : Z) (newId : ObjectId) (salt : string)
    (username email password : jsprim) (st : Store) :
  findOne (ownedBy newId) (schedules st) = None ->
  status (fst (register castString bcryptHash mac secret now newId salt
                 username email password st)) = 201 ->
  getSchedule newId
    (snd (register castString bcryptHash mac secret now newId salt
            username email password st))
  = (mkResponse 200 (ScheduleDoc (defaultSchedule newId)),
     snd (register castString bcryptHash mac secret now newId salt
            username email password st)).
Proof.
  intros Hn H.
  destruct (register_outcome castString bcryptHash mac secret now newId salt
              username email password st)
    as [[_ N] | (plain & _ & _ & E)]; [contradiction |].
  rewrite E. cbn [snd]. unfold getSchedule. cbn [schedules].
  rewrite (findOne_app_new _ _ _ Hn (ownedBy_default newId)). reflexivity.
Qed.

Lemma register_then_getSchedule_witness :
  fst (getSchedule "u1"
         (snd (register (fun _ => "x") (fun p s => s +:+ p) (fun k _ => k) "k" 0
                 "u1" "s" (JStr "ann") (JStr "ann@x") (JStr "pw") (mkStore [] [] []))))
  = mkResponse 200 (ScheduleDoc (defaultSchedule "u1")).
Proof.
  rewrite (register_then_getSchedule (fun _ => "x") (fun p s => s +:+ p) (fun k _ => k)
             "k" 0 "u1" "s" (JStr "ann") (JStr "ann@x") (JStr "pw") (mkStore [] [] [])
             eq_refl eq_refl).
  reflexivity.
Defined.

(** ** Schedule updates *)

Lemma findOne_at {A : Type} (p : A -> bool) pre d post :
  (forall x, In x pre -> p x = false) -> p d = true ->
  findOne p (pre ++ d :: post) = Some d.
Proof.
  unfold findOne. intros Hpre Hd. induction pre as [| x pre IH]; cbn [app List.find].
  - rewrite Hd. reflexivity.
  - rewrite (Hpre x (or_introl eq_refl)). apply IH. intros y Hy. apply Hpre. right. exact Hy.
Qed.


(** X13: when a schedule update whose body has no [userId] key is answered
    200, the schedule fetch of the caller that follows answers with the
    updated document and leaves the store as it is; the update has changed
    that one document only and has removed no field from it. *)
Theorem schedule_read_own_write (cs : jsprim -> string)
    (co : string -> jsval -> option jsval) (userId : ObjectId)
    (updatedSchedule : gmap string jsval) (st : Store) :
  updatedSchedule !! "userId" = None ->
  status (fst (updateSchedule cs co userId updatedSchedule st)) = 200 ->
  exists pre old new post,
    schedules st = pre ++ old :: post
    /\ updateSchedule cs co userId updatedSchedule st
       = (mkResponse 200 (ScheduleUpdated "Schedule updated successfully" new),
          mkStore (users st) (pre ++ new :: post) (timeOffs st))
    /\ (forall k, is_Some (old !! k) -> is_Some (new !! k))
    /\ getSchedule userId (snd (updateSchedule cs co userId updatedSchedule st))
       = (mkResponse 200 (ScheduleDoc new),
          snd (updateSchedule cs co userId updatedSchedule st)).
Proof.
  intros Hu H.
  destruct (updateSchedule_200 _ _ _ _ _ H)
    as (update & pre & old & post & _ & Hc & Hl & Po & Pre & E).
  destruct (castScheduleUpdate_lookup cs co _ _ Hc) as (_ & Lu & _).
  rewrite Hu in Lu.
  exists pre, old, (update ∪ old), post.
  split; [exact Hl |]. split; [exact E |]. split.
  - intros k [v Hv]. destruct (update !! k) as [w |] eqn:Hk.
    + exists w. apply lookup_union_Some_l. exact Hk.
    + exists v. rewrite lookup_union_r; assumption.
  - rewrite E. cbn [snd]. unfold getSchedule. cbn [schedules].
    rewrite (findOne_at (ownedBy userId) pre (update ∪ old) post Pre);
      [reflexivity |].
    unfold ownedBy in *. rewrite lookup_union_r; assumption.
Qed.

Lemma schedule_read_own_write_witness :
  exists new,
    fst (getSchedule "640000000000000000000001"
           (snd (updateSchedule printPrim (fun _ _ => None) "640000000000000000000001"
                   (<["Monday" := slot "08:00" "16:00"]> ∅)
                   (mkStore [] [defaultSchedule "640000000000000000000001"] []))))
    = mkResponse 200 (ScheduleDoc new)
    /\ is_Some (new !! "Friday").
Proof.
  destruct (schedule_read_own_write printPrim (fun _ _ => None) "640000000000000000000001"
              (<["Monday" := slot "08:00" "16:00"]> ∅)
              (mkStore [] [defaultSchedule "640000000000000000000001"] []))
    as (pre & old & new & post & Hl & _ & Hk & Hg).
  - reflexivity.
  - vm_compute. reflexivity.
  - exists new. rewrite Hg. split; [reflexivity |]. apply Hk.
    cbn [schedules] in Hl. destruct pre as [| x pre].
    + injection Hl as <- _. eexists. apply defaultSchedule_days. cbn [days In]. tauto.
    + injection Hl as _ Hl. destruct pre; discriminate.
Defined.


